(** * SignalGraph intelligence skeleton (intelligence-python/main.py)

    A shallow embedding of the command-line skeleton: deterministic file
    discovery ([list_files]), bounded single-line previews ([preview_file]),
    record construction ([process_file], [process_files]) and the driver
    ([main]).

    Python [str] values are sequences of Unicode code points, exceptions are
    an explicit result type, the file system is what the system calls answer,
    and standard output is the list of the texts printed, one per call of
    [print]. *)

From Stdlib Require Import List NArith ZArith Bool Ascii String Lia.
From Stdlib Require Import Permutation Sorted DecimalString.
Import ListNotations.

Local Open Scope list_scope.
Set Warnings "-register-all".

(* ================================================================= *)
(** ** Python strings *)

Definition codepoint := N.
Definition pystr := list codepoint.

(** A literal of the source, read character by character. *)
Definition py (s : string) : pystr := map N_of_ascii (list_ascii_of_string s).

Definition NL : codepoint := 10%N.   (* "\n" *)
Definition SP : codepoint := 32%N.   (* " "  *)

Fixpoint str_eqb (a b : pystr) : bool :=
  match a, b with
  | [], [] => true
  | x :: a', y :: b' => N.eqb x y && str_eqb a' b'
  | _, _ => false
  end.

(** [a < b] on [str]: lexicographic on code points, independent of locale. *)
Fixpoint str_ltb (a b : pystr) : bool :=
  match a, b with
  | _, [] => false
  | [], _ :: _ => true
  | x :: a', y :: b' =>
      if N.ltb x y then true
      else if N.ltb y x then false
      else str_ltb a' b'
  end.

Fixpoint join (sep : pystr) (ws : list pystr) : pystr :=
  match ws with
  | [] => []
  | [w] => w
  | w :: ws' => w ++ sep ++ join sep ws'
  end.

Fixpoint split_on (sep : codepoint) (s : pystr) : list pystr :=
  match s with
  | [] => [[]]
  | c :: s' =>
      if N.eqb c sep then [] :: split_on sep s'
      else match split_on sep s' with
           | [] => [[c]]
           | w :: ws => (c :: w) :: ws
           end
  end.

(** [text[:stop]] for a Python [int] stop; a negative stop counts from the
    end of the string. *)
Definition slice_upto (text : pystr) (stop : Z) : pystr :=
  if (stop <? 0)%Z
  then firstn (Z.to_nat (Z.max 0 (Z.of_nat (List.length text) + stop))) text
  else firstn (Z.to_nat stop) text.

(** [s.replace(old, new)] where [old] and [new] are one character each. *)
Definition replace (old new : codepoint) (s : pystr) : pystr :=
  map (fun c => if N.eqb c old then new else c) s.

(** [needle in s]. *)
Fixpoint starts_with (needle s : pystr) : bool :=
  match needle, s with
  | [], _ => true
  | x :: n', y :: s' => N.eqb x y && starts_with n' s'
  | _ :: _, [] => false
  end.

Fixpoint contains (needle s : pystr) : bool :=
  starts_with needle s ||
  match s with
  | [] => false
  | _ :: s' => contains needle s'
  end.

Definition decimal (n : nat) : pystr :=
  py (NilEmpty.string_of_uint (Nat.to_uint n)).

(* ================================================================= *)
(** ** Exceptions *)

Inductive oserror :=
| FileNotFoundError
| PermissionError
| NotADirectoryError
| IsADirectoryError
| OtherOSError.

(** What a read, a decode, a listing or a write can fail with; [msg] is
    [str(e)]. *)
Inductive io_failure :=
| IOFail (kind : oserror) (msg : pystr)
| DecodeFail (msg : pystr).

Inductive exn :=
| SystemExit (code : Z)
| OSError (kind : oserror) (msg : pystr)
| UnicodeDecodeError (msg : pystr).

Definition exn_of_failure (f : io_failure) : exn :=
  match f with
  | IOFail k m => OSError k m
  | DecodeFail m => UnicodeDecodeError m
  end.

(** [isinstance(e, Exception)]: [SystemExit] derives from [BaseException]
    only. *)
Definition is_Exception (e : exn) : bool :=
  match e with
  | SystemExit _ => false
  | OSError _ _ | UnicodeDecodeError _ => true
  end.

(** [str(e)]. *)
Definition str_exn (e : exn) : pystr :=
  match e with
  | SystemExit c => py (NilZero.string_of_int (Z.to_int c))
  | OSError _ m => m
  | UnicodeDecodeError m => m
  end.

Inductive Res (A : Type) :=
| Ok (a : A)
| Raise (e : exn).

Arguments Ok {A} a.
Arguments Raise {A} e.

Definition bind {A B} (c : Res A) (k : A -> Res B) : Res B :=
  match c with
  | Ok a => k a
  | Raise e => Raise e
  end.

Notation "x <- c ;; k" := (bind c (fun x => k))
  (at level 61, c at next level, right associativity).

(** [try: body  except Exception as e: handler(e)]. *)
Definition try_except_Exception {A} (body : Res A) (handler : exn -> Res A)
  : Res A :=
  match body with
  | Ok a => Ok a
  | Raise e => if is_Exception e then handler e else Raise e
  end.

(* ================================================================= *)
(** ** pathlib.Path (POSIX flavour) *)

Record Path := mkPath { root : pystr; parts : list pystr }.

Definition SLASH : codepoint := 47%N.
Definition DOT : codepoint := 46%N.

Definition parse_root (s : pystr) : pystr :=
  match s with
  | 47%N :: 47%N :: 47%N :: _ => [SLASH]
  | 47%N :: 47%N :: _ => [SLASH; SLASH]
  | 47%N :: _ => [SLASH]
  | _ => []
  end.

Definition keep_part (w : pystr) : bool :=
  negb (str_eqb w [] || str_eqb w [DOT]).

(** [Path(s)]. *)
Definition Path_of_str (s : pystr) : Path :=
  mkPath (parse_root s) (filter keep_part (split_on SLASH s)).

(** [str(p)]. *)
Definition str (p : Path) : pystr :=
  match root p, parts p with
  | [], [] => [DOT]
  | r, ps => r ++ join [SLASH] ps
  end.

(** [p.name]. *)
Definition name (p : Path) : pystr := last (parts p) [].

(** The entry called [n] of directory [p], as [iterdir] yields it. *)
Definition child (p : Path) (n : pystr) : Path :=
  mkPath (root p) (parts p ++ [n]).

Fixpoint parts_eqb (a b : list pystr) : bool :=
  match a, b with
  | [], [] => true
  | x :: a', y :: b' => str_eqb x y && parts_eqb a' b'
  | _, _ => false
  end.

Definition Path_eqb (p q : Path) : bool :=
  str_eqb (root p) (root q) && parts_eqb (parts p) (parts q).

(* ================================================================= *)
(** ** The file system *)

(** What [stat] (following symbolic links) finds at a path, with the outcome
    of reading it as UTF-8 text or of listing it.  [Unreachable] is a path
    at which [stat] fails with an error that pathlib passes on (EACCES on a
    directory of the path, ENAMETOOLONG for a name no file system admits),
    whether or not a file is there; pathlib answers [False] only for ENOENT,
    ENOTDIR and ELOOP, which is [Absent]. *)
Inductive node :=
| Absent
| Regular (content : pystr + io_failure)
| Directory (listing : list pystr + io_failure)
| Special (content : pystr + io_failure)   (* FIFO, socket, device *)
| Unreachable (f : io_failure).

Definition FS := Path -> node.

Definition outcome {A} (o : A + io_failure) : Res A :=
  match o with
  | inl a => Ok a
  | inr f => Raise (exn_of_failure f)
  end.

(** [str(e)] of an [OSError] with a file name: the name stands between
    apostrophes, which is how [repr] writes a name without apostrophes,
    backslashes and unprintable characters. *)
Definition os_message (errno : string) (p : Path) : pystr :=
  py errno ++ py ": '" ++ str p ++ py "'".

(** [p.exists()]. *)
Definition exists_ (fs : FS) (p : Path) : Res bool :=
  match fs p with
  | Absent => Ok false
  | Unreachable f => Raise (exn_of_failure f)
  | Regular _ | Directory _ | Special _ => Ok true
  end.

(** [p.is_file()]. *)
Definition is_file (fs : FS) (p : Path) : Res bool :=
  match fs p with
  | Regular _ => Ok true
  | Unreachable f => Raise (exn_of_failure f)
  | Absent | Directory _ | Special _ => Ok false
  end.

(** [list(p.iterdir())]. *)
Definition iterdir (fs : FS) (p : Path) : Res (list Path) :=
  match fs p with
  | Directory l => names <- outcome l ;; Ok (map (child p) names)
  | Absent =>
      Raise (OSError FileNotFoundError
               (os_message "[Errno 2] No such file or directory" p))
  | Regular _ | Special _ =>
      Raise (OSError NotADirectoryError
               (os_message "[Errno 20] Not a directory" p))
  | Unreachable f => Raise (exn_of_failure f)
  end.

(** [p.read_text(encoding="utf-8")]. *)
Definition read_text (fs : FS) (p : Path) : Res pystr :=
  match fs p with
  | Regular c | Special c => outcome c
  | Directory _ =>
      Raise (OSError IsADirectoryError
               (os_message "[Errno 21] Is a directory" p))
  | Absent =>
      Raise (OSError FileNotFoundError
               (os_message "[Errno 2] No such file or directory" p))
  | Unreachable f => Raise (exn_of_failure f)
  end.

(* ================================================================= *)
(** ** sorted(..., key=...) *)

Section Sorting.
Context {A : Type} (key : A -> pystr).

(** Insertion in front of the first element whose key is not smaller:
    elements with equal keys keep their order. *)
Fixpoint insert_by (x : A) (l : list A) : list A :=
  match l with
  | [] => [x]
  | y :: l' =>
      if str_ltb (key y) (key x) then y :: insert_by x l'
      else x :: l
  end.

Definition sorted (l : list A) : list A := fold_right insert_by [] l.

(** [x] may stand before [y] in a list sorted by [key]. *)
Definition key_le (x y : A) : Prop := str_ltb (key y) (key x) = false.
End Sorting.

(* ================================================================= *)
(** ** Discovery and preview *)

(** [[p for p in entries if p.is_file()]]. *)
Fixpoint keep_files (fs : FS) (entries : list Path) : Res (list Path) :=
  match entries with
  | [] => Ok []
  | p :: rest =>
      b <- is_file fs p ;;
      files <- keep_files fs rest ;;
      Ok (if b then p :: files else files)
  end.

Definition list_files (fs : FS) (path : Path) : Res (list Path) :=
  there <- exists_ fs path ;;
  if negb there then Ok []
  else
    entries <- iterdir fs path ;;
    files <- keep_files fs entries ;;
    Ok (sorted name files).

(** [f"<error reading file: {e}>"], with [m] for [str(e)]. *)
Definition diagnostic (m : pystr) : pystr :=
  py "<error reading file: " ++ m ++ py ">".

Definition preview_file (fs : FS) (p : Path) (length : Z) : Res pystr :=
  try_except_Exception
    (text <- read_text fs p ;;
     Ok (replace NL SP (slice_upto text length)))
    (fun e => Ok (diagnostic (str_exn e))).

Definition default_length : Z := 200.

(* ================================================================= *)
(** ** Python values that reach the JSON output *)

(** A [dict] is its items in insertion order. *)
Inductive value :=
| VStr (s : pystr)
| VList (items : list value)
| VDict (items : list (pystr * value)).

Fixpoint dict_get (d : list (pystr * value)) (k : pystr) : option value :=
  match d with
  | [] => None
  | (k', v) :: d' => if str_eqb k' k then Some v else dict_get d' k
  end.

Definition get (v : value) (k : string) : option value :=
  match v with
  | VDict d => dict_get d (py k)
  | _ => None
  end.

Definition keys (v : value) : list pystr :=
  match v with
  | VDict d => map fst d
  | _ => []
  end.

(* ================================================================= *)
(** ** Records and aggregation *)

Definition process_file (fs : FS) (p : Path) : Res value :=
  preview <- preview_file fs p default_length ;;
  Ok (VDict
        [ (py "file", VStr (str p));
          (py "preview", VStr preview);
          (py "entities", VList []);
          (py "relations", VList []);
          (py "provenance", VDict [ (py "source", VStr (str p)) ]) ]).

(** The [for] loop of [process_files]; [files] is the list held under
    ["files"], which every iteration appends to. *)
Fixpoint process_files_loop (fs : FS) (paths : list Path) (files : list value)
  : Res (list value) :=
  match paths with
  | [] => Ok files
  | p :: rest =>
      r <- process_file fs p ;;
      process_files_loop fs rest (files ++ [r])
  end.

Definition process_files (fs : FS) (paths : list Path) : Res value :=
  files <- process_files_loop fs paths [] ;;
  Ok (VDict [ (py "files", VList files) ]).

(* ================================================================= *)
(** ** json.dumps(results, indent=2) *)

Definition hex_digit (d : N) : codepoint :=
  if (d <? 10)%N then (48 + d)%N else (87 + d)%N.

(** ['{0:04x}'.format(n)] for [n < 0x10000]. *)
Definition hex4 (n : N) : pystr :=
  [ hex_digit ((n / 4096) mod 16); hex_digit ((n / 256) mod 16);
    hex_digit ((n / 16) mod 16); hex_digit (n mod 16) ]%N.

Definition BACKSLASH : codepoint := 92%N.

(** One character under [ensure_ascii=True]. *)
Definition escape_char (c : codepoint) : pystr :=
  if (c =? 34)%N then [BACKSLASH; 34%N]
  else if (c =? 92)%N then [BACKSLASH; BACKSLASH]
  else if (c =? 10)%N then [BACKSLASH; 110%N]
  else if (c =? 13)%N then [BACKSLASH; 114%N]
  else if (c =? 9)%N then [BACKSLASH; 116%N]
  else if (c =? 8)%N then [BACKSLASH; 98%N]
  else if (c =? 12)%N then [BACKSLASH; 102%N]
  else if ((32 <=? c) && (c <=? 126))%N then [c]
  else if (c <? 65536)%N then BACKSLASH :: 117%N :: hex4 c
  else
    let n := (c - 65536)%N in
    (BACKSLASH :: 117%N :: hex4 (55296 + (n / 1024) mod 1024)%N)
      ++ (BACKSLASH :: 117%N :: hex4 (56320 + n mod 1024)%N).

Definition json_string (s : pystr) : pystr :=
  34%N :: flat_map escape_char s ++ [34%N].

Definition newline_indent (level : nat) : pystr :=
  NL :: repeat SP (2 * level).

Fixpoint dumps_at (level : nat) (v : value) : pystr :=
  match v with
  | VStr s => json_string s
  | VList [] => py "[]"
  | VList items =>
      py "[" ++ newline_indent (S level)
        ++ join (py "," ++ newline_indent (S level))
                (map (dumps_at (S level)) items)
        ++ newline_indent level ++ py "]"
  | VDict [] => py "{}"
  | VDict items =>
      py "{" ++ newline_indent (S level)
        ++ join (py "," ++ newline_indent (S level))
                (map (fun kv => json_string (fst kv) ++ py ": "
                                  ++ dumps_at (S level) (snd kv)) items)
        ++ newline_indent level ++ py "}"
  end.

Definition json_dumps (v : value) : pystr := dumps_at 0 v.

(* ================================================================= *)
(** ** The process: file system, writable targets, standard output *)

Record World := mkWorld {
  nodes : FS;
  write_failure : Path -> option io_failure;
  stdout : list pystr
}.

(** State and exceptions of the driver. *)
Definition M (A : Type) := World -> World * Res A.

Definition ret {A} (a : A) : M A := fun w => (w, Ok a).

Definition bindM {A B} (c : M A) (k : A -> M B) : M B :=
  fun w =>
    match c w with
    | (w', Ok a) => k a w'
    | (w', Raise e) => (w', Raise e)
    end.

Notation "x <~ c ;; k" := (bindM c (fun x => k))
  (at level 61, c at next level, right associativity).
Notation "c ;;; k" := (bindM c (fun _ => k))
  (at level 61, right associativity).

Definition raise {A} (e : exn) : M A := fun w => (w, Raise e).

(** A computation that only consults the file system. *)
Definition reading {A} (f : FS -> Res A) : M A := fun w => (w, f (nodes w)).

Definition print (line : pystr) : M unit :=
  fun w => (mkWorld (nodes w) (write_failure w) (stdout w ++ [line]), Ok tt).

(** [p.write_text(text, encoding="utf-8")], as far as a run depends on it:
    whether the write fails, and the text found at [p] after a write that
    succeeds.  Listings of directories and other spellings of [p] are left
    as they were. *)
Definition write_text (p : Path) (text : pystr) : M unit :=
  fun w =>
    match write_failure w p with
    | Some f => (w, Raise (exn_of_failure f))
    | None =>
        (mkWorld (fun q => if Path_eqb q p then Regular (inl text)
                           else nodes w q)
                 (write_failure w) (stdout w),
         Ok tt)
    end.

(** The parsed command line; [argparse] stores [None] for an option that is
    not given. *)
Record Args := mkArgs {
  data_dir : pystr;
  file : option pystr;
  output : option pystr
}.

(** [if x:] on an optional string: [None] and [""] are false. *)
Definition truthy (x : option pystr) : bool :=
  match x with
  | Some (_ :: _) => true
  | _ => false
  end.

Definition text_of (x : option pystr) : pystr :=
  match x with
  | Some s => s
  | None => []
  end.

Definition tag (s : string) (rest : pystr) : pystr := py s ++ rest.

(** [main()] from [args = parser.parse_args()] on: [args] is what argparse
    returned for a command line it accepted. *)
Definition main (args : Args) : M unit :=
  results <~
    (if truthy (file args) then
       let p := Path_of_str (text_of (file args)) in
       there <~ reading (fun fs => exists_ fs p) ;;
       if negb there then
         print (tag "[intelligence] error: file not found: " (str p)) ;;;
         raise (SystemExit 2)
       else
         print (tag "[intelligence] processing single file: " (str p)) ;;;
         r <~ reading (fun fs => process_file fs p) ;;
         ret (VDict [ (py "files", VList [r]) ])
     else
       let data_path := Path_of_str (data_dir args) in
       files <~ reading (fun fs => list_files fs data_path) ;;
       print (tag "[intelligence] discovered "
                (decimal (List.length files) ++ py " files in "
                   ++ str data_path)) ;;;
       reading (fun fs => process_files fs files)) ;;
  let out_json := json_dumps results in
  if truthy (output args) then
    let outpath := Path_of_str (text_of (output args)) in
    write_text outpath out_json ;;;
    print (tag "[intelligence] written output to " (str outpath))
  else
    print out_json.

(** The status the interpreter exits with. *)
Definition exit_code (r : Res unit) : Z :=
  match r with
  | Ok _ => 0
  | Raise (SystemExit c) => c
  | Raise _ => 1
  end.

(* ================================================================= *)
(** ** Vocabulary of the specification *)

(** The run prints the JSON or writes it to a target that accepts it. *)
Definition output_ok (args : Args) (w : World) : Prop :=
  truthy (output args) = false \/
  write_failure w (Path_of_str (text_of (output args))) = None.

(** The run builds a record for [p]: [--file] names it and it exists, or
    discovery of [--data-dir] succeeds and finds it. *)
Definition processes (args : Args) (w : World) (p : Path) : Prop :=
  if truthy (file args)
  then Path_of_str (text_of (file args)) = p /\ exists_ (nodes w) p = Ok true
  else exists files,
      list_files (nodes w) (Path_of_str (data_dir args)) = Ok files /\
      In p files.

(** The kind of node at a path. *)
Definition regular (fs : FS) (p : Path) : bool :=
  match fs p with
  | Regular _ => true
  | _ => false
  end.

Definition is_dir (fs : FS) (p : Path) : bool :=
  match fs p with
  | Directory _ => true
  | _ => false
  end.

Definition reachable (fs : FS) (p : Path) : bool :=
  match fs p with
  | Unreachable _ => false
  | _ => true
  end.

(** The last statements of [main], from [json.dumps] on. *)
Definition write_output (args : Args) (results : value) : M unit :=
  let out_json := json_dumps results in
  if truthy (output args) then
    let outpath := Path_of_str (text_of (output args)) in
    write_text outpath out_json ;;;
    print (tag "[intelligence] written output to " (str outpath))
  else
    print out_json.

(** Where the JSON text of a run ends up: in the [--output] file, or as the
    last line printed. *)
Definition emitted (args : Args) (w' : World) (text : pystr) : Prop :=
  if truthy (output args)
  then nodes w' (Path_of_str (text_of (output args))) = Regular (inl text)
  else last (stdout w') [] = text.


(** The characters [str.splitlines] breaks a line at. *)
Definition is_line_break (c : codepoint) : bool :=
  existsb (N.eqb c) [10; 11; 12; 13; 28; 29; 30; 133; 8232; 8233]%N.

Definition single_line (s : pystr) : bool :=
  forallb (fun c => negb (is_line_break c)) s.

(** Text made of newlines and printable ASCII only. *)
Definition ascii_text (s : pystr) : bool :=
  forallb (fun c => N.eqb c NL || (N.leb 32 c && N.leb c 126)) s.

(** The world after one more text was printed. *)
Definition printed (w : World) (line : pystr) : World :=
  mkWorld (nodes w) (write_failure w) (stdout w ++ [line]).

(* ================================================================= *)
(** ** Sample file systems *)

Fixpoint fs_of (l : list (Path * node)) : FS :=
  fun p =>
    match l with
    | [] => Absent
    | (q, n) :: l' => if Path_eqb p q then n else fs_of l' p
    end.

Definition data : Path := Path_of_str (py "data/").

Definition denied (p : Path) : io_failure :=
  IOFail PermissionError (os_message "[Errno 13] Permission denied" p).

Definition LINE_SEPARATOR : codepoint := 8232%N.   (* U+2028 *)

Definition long_name : pystr := repeat 97%N 200.

(** [data/] holds two readable files, a subdirectory, a FIFO, a file that
    may not be read, a file with a U+2028 in it and a file with a long
    name that may not be read; [locked] is a directory that may not be
    listed, [shut] one that may be listed and not searched. *)
Definition sample_fs : FS :=
  fs_of
    [ (data,
       Directory (inl [ py "b.txt"; py "a.txt"; py "sub"; py "pipe";
                        py "secret.txt"; py "notes.txt"; long_name ]));
      (child data (py "a.txt"), Regular (inl (py "xy")));
      (child data (py "b.txt"),
       Regular (inl (py "hello" ++ [NL] ++ py "world")));
      (child data (py "sub"), Directory (inl []));
      (child data (py "pipe"), Special (inl []));
      (child data (py "secret.txt"),
       Regular (inr (denied (child data (py "secret.txt")))));
      (child data (py "notes.txt"),
       Regular (inl (py "one" ++ [LINE_SEPARATOR] ++ py "two")));
      (child data long_name, Regular (inr (denied (child data long_name))));
      (Path_of_str (py "locked"),
       Directory (inr (denied (Path_of_str (py "locked")))));
      (Path_of_str (py "shut"), Directory (inl [ py "x" ]));
      (Path_of_str (py "shut/x"),
       Unreachable (denied (Path_of_str (py "shut/x")))) ].

Definition sample_world : World := mkWorld sample_fs (fun _ => None) [].





(** The scenario of the specification: [data/] holds [b.txt] and [a.txt]. *)
Definition scenario_fs : FS :=
  fs_of
    [ (data, Directory (inl [ py "b.txt"; py "a.txt" ]));
      (child data (py "b.txt"),
       Regular (inl (py "hello" ++ [NL] ++ py "world")));
      (child data (py "a.txt"), Regular (inl (py "xy"))) ].

(* ================================================================= *)
(** ** Order on strings *)

Lemma str_eqb_eq (a b : pystr) : str_eqb a b = true <-> a = b.
Proof.
  revert b; induction a as [|x a IH]; intros [|y b]; simpl;
    try (split; [discriminate | congruence]); [tauto|].
  rewrite andb_true_iff, N.eqb_eq, IH.
  split; [intros [-> ->]; reflexivity | intros H; injection H; auto].
Qed.

Lemma str_eqb_refl (a : pystr) : str_eqb a a = true.
Proof. apply str_eqb_eq; reflexivity. Qed.

Lemma str_ltb_irrefl (a : pystr) : str_ltb a a = false.
Proof.
  induction a as [|x a IH]; simpl; [reflexivity|].
  rewrite N.ltb_irrefl; exact IH.
Qed.

Lemma str_ltb_trans (a b c : pystr) :
  str_ltb a b = true -> str_ltb b c = true -> str_ltb a c = true.
Proof.
  revert b c; induction a as [|x a IH]; intros [|y b] [|z c]; simpl;
    try discriminate; try reflexivity.
  destruct (N.ltb_spec x y), (N.ltb_spec y x), (N.ltb_spec y z),
    (N.ltb_spec z y), (N.ltb_spec x z), (N.ltb_spec z x);
    try discriminate; try reflexivity; try lia.
  apply IH.
Qed.

Lemma str_ltb_total (a b : pystr) :
  str_ltb a b = false -> str_ltb b a = false -> a = b.
Proof.
  revert b; induction a as [|x a IH]; intros [|y b]; simpl;
    try discriminate; [reflexivity|].
  destruct (N.ltb_spec x y), (N.ltb_spec y x); try discriminate; try lia.
  intros H1 H2. assert (x = y) by lia. subst. f_equal. auto.
Qed.

Lemma str_ltb_asym (a b : pystr) :
  str_ltb a b = true -> str_ltb b a = false.
Proof.
  intros H. destruct (str_ltb b a) eqn:E; [|reflexivity].
  pose proof (str_ltb_trans _ _ _ H E) as C.
  rewrite str_ltb_irrefl in C. discriminate.
Qed.

(** The order is the lexicographic one on code points: [a < b] exactly when
    [a] is a proper prefix of [b] or the two differ first at a position where
    [a] has the smaller code point. *)
Lemma str_ltb_lexicographic (a b : pystr) :
  str_ltb a b = true <->
  (exists y rest, b = a ++ y :: rest) \/
  (exists pre x y ra rb,
      a = pre ++ x :: ra /\ b = pre ++ y :: rb /\ (x < y)%N).
Proof.
  revert b; induction a as [|x a IH]; intros [|y b]; simpl.
  - split; [discriminate|].
    intros [(y & r & H) | (pre & x & y & ra & rb & H & _)];
      [discriminate | destruct pre; discriminate].
  - split; [left; exists y, b; reflexivity | reflexivity].
  - split; [discriminate|].
    intros [(y & r & H) | (pre & x' & y & ra & rb & _ & H & _)];
      [discriminate | destruct pre; discriminate].
  - destruct (N.ltb_spec x y) as [Hxy|Hxy].
    + split; [|reflexivity]. intros _. right.
      exists [], x, y, a, b. auto.
    + destruct (N.ltb_spec y x) as [Hyx|Hyx].
      * split; [discriminate|].
        intros [(y' & r & H) | (pre & x' & y' & ra & rb & Ha & Hb & Hlt)].
        -- injection H as -> _. lia.
        -- destruct pre as [|c pre]; simpl in *.
           ++ injection Ha as -> _. injection Hb as -> _. lia.
           ++ injection Ha as -> _. injection Hb as -> _. lia.
      * assert (x = y) by lia. subst y. rewrite IH. split.
        -- intros [(y' & r & ->) | (pre & x' & y' & ra & rb & -> & -> & Hlt)].
           ++ left. exists y', r. reflexivity.
           ++ right. exists (x :: pre), x', y', ra, rb. auto.
        -- intros [(y' & r & H) | (pre & x' & y' & ra & rb & Ha & Hb & Hlt)].
           ++ injection H as ->. left. exists y', r. reflexivity.
           ++ destruct pre as [|c pre]; simpl in *.
              ** injection Ha as -> _. injection Hb as -> _. lia.
              ** injection Ha as -> ->. injection Hb as ->.
                 right. exists pre, x', y', ra, rb. auto.
Qed.

(* ================================================================= *)
(** ** The sort *)

Section SortingFacts.
Context {A : Type} (key : A -> pystr).

Lemma key_le_trans (x y z : A) :
  key_le key x y -> key_le key y z -> key_le key x z.
Proof.
  unfold key_le. intros Hxy Hyz.
  destruct (str_ltb (key z) (key x)) eqn:E; [|reflexivity].
  destruct (str_ltb (key x) (key y)) eqn:F.
  - rewrite (str_ltb_trans _ _ _ E F) in Hyz. discriminate.
  - rewrite (str_ltb_total _ _ F Hxy) in E. congruence.
Qed.

Lemma insert_by_perm (x : A) (l : list A) :
  Permutation (x :: l) (insert_by key x l).
Proof.
  induction l as [|y l IH]; simpl; [reflexivity|].
  destruct (str_ltb (key y) (key x)); [|reflexivity].
  rewrite perm_swap. constructor. exact IH.
Qed.

Lemma sorted_perm (l : list A) : Permutation l (sorted key l).
Proof.
  induction l as [|x l IH]; simpl; [constructor|].
  rewrite <- insert_by_perm. constructor. exact IH.
Qed.

Lemma insert_by_Sorted (x : A) (l : list A) :
  Sorted (key_le key) l -> Sorted (key_le key) (insert_by key x l).
Proof.
  induction l as [|y l IH]; simpl; intros Hs.
  - repeat constructor.
  - destruct (str_ltb (key y) (key x)) eqn:E.
    + inversion Hs as [|? ? Hl Hhd]; subst.
      constructor; [auto|].
      destruct l as [|z l]; simpl.
      * constructor. unfold key_le. apply str_ltb_asym. exact E.
      * destruct (str_ltb (key z) (key x)).
        -- inversion Hhd; subst. constructor. assumption.
        -- constructor. unfold key_le. apply str_ltb_asym. exact E.
    + constructor; [assumption|]. constructor. exact E.
Qed.

Lemma sorted_Sorted (l : list A) :
  StronglySorted (key_le key) (sorted key l).
Proof.
  apply Sorted_StronglySorted.
  - intros x y z. apply key_le_trans.
  - induction l as [|x l IH]; simpl;
      [constructor | apply insert_by_Sorted; exact IH].
Qed.

(** Stability: the elements carrying one key come out in the order they
    went in. *)
Lemma insert_by_stable (k : pystr) (x : A) (l : list A) :
  StronglySorted (key_le key) l ->
  filter (fun y => str_eqb (key y) k) (insert_by key x l)
  = filter (fun y => str_eqb (key y) k) (x :: l).
Proof.
  induction l as [|y l IH]; intros Hs; [reflexivity|].
  simpl insert_by.
  destruct (str_ltb (key y) (key x)) eqn:E; [|reflexivity].
  inversion Hs as [|? ? Hl Hall]; subst.
  specialize (IH Hl). simpl in *.
  destruct (str_eqb (key y) k) eqn:Ey; destruct (str_eqb (key x) k) eqn:Ex;
    rewrite IH; try reflexivity.
  apply str_eqb_eq in Ey, Ex. rewrite Ey, Ex, str_ltb_irrefl in E.
  discriminate.
Qed.

Lemma sorted_stable (k : pystr) (l : list A) :
  filter (fun y => str_eqb (key y) k) (sorted key l)
  = filter (fun y => str_eqb (key y) k) l.
Proof.
  induction l as [|x l IH]; [reflexivity|].
  simpl sorted. rewrite insert_by_stable by apply sorted_Sorted.
  simpl. rewrite IH. reflexivity.
Qed.

(** Insertions of elements with different keys commute. *)
Lemma insert_by_comm_lt (x y : A) (l : list A) :
  str_ltb (key x) (key y) = true ->
  insert_by key x (insert_by key y l) = insert_by key y (insert_by key x l).
Proof.
  intros Hxy. pose proof (str_ltb_asym _ _ Hxy) as Hyx.
  induction l as [|z l IH]; simpl.
  - rewrite Hxy, Hyx. reflexivity.
  - destruct (str_ltb (key z) (key x)) eqn:Ezx.
    + rewrite (str_ltb_trans _ _ _ Ezx Hxy). simpl.
      rewrite Ezx, (str_ltb_trans _ _ _ Ezx Hxy), IH. reflexivity.
    + destruct (str_ltb (key z) (key y)) eqn:Ezy; simpl;
        rewrite ?Ezx, ?Ezy, ?Hxy, ?Hyx; reflexivity.
Qed.

Lemma insert_by_comm (x y : A) (l : list A) :
  key x <> key y ->
  insert_by key x (insert_by key y l) = insert_by key y (insert_by key x l).
Proof.
  intros Hne.
  destruct (str_ltb (key x) (key y)) eqn:Exy;
    [apply insert_by_comm_lt; exact Exy|].
  destruct (str_ltb (key y) (key x)) eqn:Eyx;
    [symmetry; apply insert_by_comm_lt; exact Eyx|].
  elim Hne. apply str_ltb_total; assumption.
Qed.

(** With pairwise different keys the result does not depend on the order
    of the input. *)
Lemma sorted_order_independent (l l' : list A) :
  Permutation l l' -> NoDup (map key l) -> sorted key l = sorted key l'.
Proof.
  induction 1 as [| x l l' _ IH | x y l | l l' l'' H1 IH1 H2 IH2];
    intros Hnd; simpl.
  - reflexivity.
  - inversion Hnd; subst. rewrite IH by assumption. reflexivity.
  - apply insert_by_comm. simpl in Hnd.
    inversion Hnd as [|? ? Hin _]; subst.
    intros Heq. apply Hin. left. symmetry. exact Heq.
  - rewrite IH1 by assumption. apply IH2.
    eapply Permutation_NoDup; [|exact Hnd].
    apply Permutation_map. exact H1.
Qed.
End SortingFacts.

(* ================================================================= *)
(** ** Preview extraction *)

Lemma read_text_raises_Exception (fs : FS) (p : Path) (e : exn) :
  read_text fs p = Raise e -> is_Exception e = true.
Proof.
  unfold read_text.
  destruct (fs p) as [|[t|f]|l|[t|f]|f]; simpl; intros H;
    try discriminate; injection H as <-; try reflexivity;
    destruct f; reflexivity.
Qed.

Lemma preview_file_read (fs : FS) (p : Path) (n : Z) (text : pystr) :
  read_text fs p = Ok text ->
  preview_file fs p n = Ok (replace NL SP (slice_upto text n)).
Proof. unfold preview_file. intros ->. reflexivity. Qed.

Lemma preview_file_failed (fs : FS) (p : Path) (n : Z) (e : exn) :
  read_text fs p = Raise e ->
  preview_file fs p n = Ok (diagnostic (str_exn e)).
Proof.
  intros H. unfold preview_file. rewrite H. simpl.
  rewrite (read_text_raises_Exception _ _ _ H). reflexivity.
Qed.

Lemma preview_file_total (fs : FS) (p : Path) (n : Z) :
  exists s, preview_file fs p n = Ok s.
Proof.
  destruct (read_text fs p) as [text|e] eqn:E.
  - eexists. apply preview_file_read. exact E.
  - eexists. apply preview_file_failed. exact E.
Qed.

Lemma replace_length (old new : codepoint) (s : pystr) :
  List.length (replace old new s) = List.length s.
Proof. apply length_map. Qed.

Lemma replace_removes (old new : codepoint) (s : pystr) :
  old <> new -> ~ In old (replace old new s).
Proof.
  intros Hne Hin. unfold replace in Hin. apply in_map_iff in Hin.
  destruct Hin as (c & Hc & _).
  destruct (N.eqb_spec c old); congruence.
Qed.

Lemma replace_nth (old new : codepoint) (s : pystr) (i : nat) (c : codepoint) :
  nth_error s i = Some c ->
  nth_error (replace old new s) i = Some (if N.eqb c old then new else c).
Proof.
  intros H. unfold replace.
  exact (map_nth_error (fun c => if N.eqb c old then new else c) i s H).
Qed.

Lemma slice_upto_length (text : pystr) (n : Z) :
  (0 <= n)%Z ->
  List.length (slice_upto text n) = Nat.min (Z.to_nat n) (List.length text).
Proof.
  intros Hn. unfold slice_upto.
  destruct (Z.ltb_spec n 0); [lia|]. apply length_firstn.
Qed.

Lemma slice_upto_all (text : pystr) (n : Z) :
  (Z.of_nat (List.length text) <= n)%Z -> slice_upto text n = text.
Proof.
  intros Hn. unfold slice_upto.
  destruct (Z.ltb_spec n 0); [lia|]. apply firstn_all2. lia.
Qed.

Lemma diagnostic_marked (m : pystr) :
  contains (py "error reading file") (diagnostic m) = true.
Proof. reflexivity. Qed.

Lemma diagnostic_length (m : pystr) :
  List.length (diagnostic m) = 22 + List.length m.
Proof. unfold diagnostic. rewrite !length_app. simpl. lia. Qed.

(* ================================================================= *)
(** ** Discovery *)

Lemma name_child (p : Path) (n : pystr) : name (child p n) = n.
Proof. unfold name, child. simpl. apply last_last. Qed.

Lemma filter_perm {A} (f : A -> bool) (l l' : list A) :
  Permutation l l' -> Permutation (filter f l) (filter f l').
Proof.
  induction 1 as [| x l l' _ IH | x y l | l l' l'' _ IH1 _ IH2]; simpl.
  - constructor.
  - destruct (f x); [constructor|]; exact IH.
  - destruct (f x), (f y); try reflexivity. apply perm_swap.
  - etransitivity; eassumption.
Qed.

Lemma regular_children (fs : FS) (p : Path) (names : list pystr) :
  filter (regular fs) (map (child p) names)
  = map (child p) (filter (fun n => regular fs (child p n)) names).
Proof.
  induction names as [|n names IH]; simpl; [reflexivity|].
  destruct (regular fs (child p n)); simpl; rewrite IH; reflexivity.
Qed.

Lemma names_of_children (p : Path) (names : list pystr) :
  map name (map (child p) names) = names.
Proof.
  induction names as [|n names IH]; simpl; [reflexivity|].
  rewrite name_child, IH. reflexivity.
Qed.

Lemma is_file_reachable (fs : FS) (p : Path) :
  reachable fs p = true -> is_file fs p = Ok (regular fs p).
Proof.
  unfold reachable, is_file, regular.
  destruct (fs p); intros; try discriminate; reflexivity.
Qed.

Lemma keep_files_reachable (fs : FS) (entries : list Path) :
  Forall (fun q => reachable fs q = true) entries ->
  keep_files fs entries = Ok (filter (regular fs) entries).
Proof.
  induction 1 as [|q entries Hq _ IH]; simpl; [reflexivity|].
  rewrite (is_file_reachable _ _ Hq), IH. simpl.
  destruct (regular fs q); reflexivity.
Qed.


Lemma list_files_directory (fs : FS) (p : Path) (names : list pystr) :
  fs p = Directory (inl names) ->
  Forall (fun n => reachable fs (child p n) = true) names ->
  list_files fs p
  = Ok (sorted name (filter (regular fs) (map (child p) names))).
Proof.
  intros H Hall. unfold list_files, exists_, iterdir. rewrite H. simpl.
  rewrite keep_files_reachable; [reflexivity|].
  apply Forall_map. exact Hall.
Qed.

Lemma list_files_not_a_directory (fs : FS) (p : Path) :
  exists_ fs p = Ok true -> is_dir fs p = false ->
  list_files fs p
  = Raise (OSError NotADirectoryError
             (os_message "[Errno 20] Not a directory" p)).
Proof.
  unfold list_files, exists_, is_dir, iterdir.
  destruct (fs p); simpl; intros; try discriminate; reflexivity.
Qed.

Lemma list_files_returns (fs : FS) (p : Path) (files : list Path) :
  list_files fs p = Ok files ->
  exists_ fs p = Ok false \/ is_dir fs p = true.
Proof.
  unfold list_files, exists_, is_dir, iterdir.
  destruct (fs p); simpl; intros; try discriminate; auto.
Qed.

(** C3 (as amended): for every directory [p] that can be listed, with
    entries [names] each of which can be examined, [list_files] returns
    exactly the regular files among the entries of [p] (subdirectories and
    other kinds of entries left out, each file once), sorted by file name in
    code-point order by a stable sort; the result is the same whenever the
    directory holds the same entries, whatever order the operating system
    lists them in. *)
Theorem list_files_sorted_regular_files
    (fs : FS) (p : Path) (names : list pystr) :
  fs p = Directory (inl names) ->
  Forall (fun n => reachable fs (child p n) = true) names ->
  exists files,
    list_files fs p = Ok files /\
    Permutation files (filter (regular fs) (map (child p) names)) /\
    (forall q, In q files <->
               exists n, In n names /\ q = child p n /\ regular fs q = true) /\
    StronglySorted (key_le name) files /\
    (forall k,
        filter (fun q => str_eqb (name q) k) files
        = filter (fun q => str_eqb (name q) k)
            (filter (regular fs) (map (child p) names))) /\
    (forall fs' names',
        fs' p = Directory (inl names') ->
        Permutation names names' -> NoDup names ->
        (forall n, In n names -> fs' (child p n) = fs (child p n)) ->
        list_files fs' p = Ok files).
Proof.
  intros Hdir Hall. eexists.
  split; [exact (list_files_directory fs p names Hdir Hall)|].
  split; [symmetry; apply sorted_perm|].
  split.
  { intros q. split.
    - intros Hin.
      apply (Permutation_in _ (Permutation_sym (sorted_perm name _))) in Hin.
      apply filter_In in Hin. destruct Hin as [Hin Hf].
      apply in_map_iff in Hin. destruct Hin as (n & <- & Hn).
      exists n. auto.
    - intros (n & Hn & -> & Hf).
      apply (Permutation_in _ (sorted_perm name _)).
      apply filter_In. split; [apply in_map; exact Hn | exact Hf]. }
  split; [apply sorted_Sorted|].
  split; [intros k; apply sorted_stable|].
  intros fs' names' Hdir' Hperm Hnd Hsame.
  assert (forall n, In n names' -> fs' (child p n) = fs (child p n)) as Hsame'.
  { intros n Hn. apply Hsame.
    apply (Permutation_in _ (Permutation_sym Hperm)). exact Hn. }
  rewrite (list_files_directory _ _ _ Hdir').
  - f_equal.
    assert (filter (regular fs') (map (child p) names')
            = filter (regular fs) (map (child p) names')) as ->.
    { rewrite !regular_children. f_equal. apply filter_ext_in.
      intros n Hn. unfold regular. rewrite (Hsame' n Hn). reflexivity. }
    symmetry. apply sorted_order_independent.
    + apply filter_perm, Permutation_map, Hperm.
    + rewrite regular_children, names_of_children.
      apply NoDup_filter. exact Hnd.
  - apply Forall_forall. intros n Hn. unfold reachable.
    rewrite (Hsame' n Hn).
    rewrite Forall_forall in Hall. apply Hall.
    apply (Permutation_in _ (Permutation_sym Hperm)). exact Hn.
Qed.

(** C3 (as amended), at [data/] of the scenario, whose entries are listed
    as [b.txt], [a.txt]. *)
Lemma list_files_sorted_regular_files_witness :
  exists files,
    list_files scenario_fs data = Ok files /\
    Permutation files
      (filter (regular scenario_fs)
         (map (child data) [ py "b.txt"; py "a.txt" ])) /\
    (forall q, In q files <->
               exists n, In n [ py "b.txt"; py "a.txt" ]
                         /\ q = child data n
                         /\ regular scenario_fs q = true) /\
    StronglySorted (key_le name) files /\
    (forall k,
        filter (fun q => str_eqb (name q) k) files
        = filter (fun q => str_eqb (name q) k)
            (filter (regular scenario_fs)
               (map (child data) [ py "b.txt"; py "a.txt" ]))) /\
    (forall fs' names',
        fs' data = Directory (inl names') ->
        Permutation [ py "b.txt"; py "a.txt" ] names' ->
        NoDup [ py "b.txt"; py "a.txt" ] ->
        (forall n, In n [ py "b.txt"; py "a.txt" ] ->
                   fs' (child data n) = scenario_fs (child data n)) ->
        list_files fs' data = Ok files).
Proof.
  apply (list_files_sorted_regular_files scenario_fs data
           [ py "b.txt"; py "a.txt" ]).
  - reflexivity.
  - repeat constructor.
Defined.

(** C3 (as stated) fails at a directory that may not be listed, and at one
    whose entries may not be examined: [locked] and [shut] exist and are
    directories, and [list_files] raises at both. *)
Lemma list_files_unlistable_directory :
  (exists_ sample_fs (Path_of_str (py "locked")) = Ok true /\
   is_dir sample_fs (Path_of_str (py "locked")) = true /\
   list_files sample_fs (Path_of_str (py "locked"))
   = Raise (OSError PermissionError
              (py "[Errno 13] Permission denied: 'locked'"))) /\
  (exists_ sample_fs (Path_of_str (py "shut")) = Ok true /\
   is_dir sample_fs (Path_of_str (py "shut")) = true /\
   list_files sample_fs (Path_of_str (py "shut"))
   = Raise (OSError PermissionError
              (py "[Errno 13] Permission denied: 'shut/x'"))) /\
  ~ (forall p, is_dir sample_fs p = true ->
               exists files, list_files sample_fs p = Ok files).
Proof.
  split; [repeat split|]. split; [repeat split|].
  intros H. destruct (H (Path_of_str (py "locked")) eq_refl) as [files Hf].
  vm_compute in Hf. discriminate.
Qed.

(* ================================================================= *)
(** ** Records *)

Lemma process_file_record (fs : FS) (p : Path) (preview : pystr) :
  preview_file fs p default_length = Ok preview ->
  process_file fs p
  = Ok (VDict
          [ (py "file", VStr (str p));
            (py "preview", VStr preview);
            (py "entities", VList []);
            (py "relations", VList []);
            (py "provenance", VDict [ (py "source", VStr (str p)) ]) ]).
Proof. unfold process_file. intros ->. reflexivity. Qed.

Lemma process_file_total (fs : FS) (p : Path) :
  exists r, process_file fs p = Ok r.
Proof.
  destruct (preview_file_total fs p default_length) as [s Hs].
  eexists. apply process_file_record. exact Hs.
Qed.

Lemma process_file_local (fs fs' : FS) (p : Path) :
  fs' p = fs p -> process_file fs' p = process_file fs p.
Proof.
  intros H. unfold process_file, preview_file, read_text. rewrite H.
  reflexivity.
Qed.

Lemma process_files_loop_appends (fs : FS) (paths : list Path) :
  forall files, exists recs,
    process_files_loop fs paths files = Ok (files ++ recs) /\
    Forall2 (fun p r => process_file fs p = Ok r) paths recs.
Proof.
  induction paths as [|p paths IH]; intros files; simpl.
  - exists []. rewrite app_nil_r. split; [reflexivity | constructor].
  - destruct (process_file_total fs p) as [r Hr]. rewrite Hr. simpl.
    destruct (IH (files ++ [r])) as (recs & Hloop & Hall).
    exists (r :: recs). rewrite Hloop, <- app_assoc. simpl.
    split; [reflexivity | constructor; assumption].
Qed.

Lemma process_files_total (fs : FS) (paths : list Path) :
  exists recs,
    process_files fs paths = Ok (VDict [ (py "files", VList recs) ]) /\
    Forall2 (fun p r => process_file fs p = Ok r) paths recs.
Proof.
  destruct (process_files_loop_appends fs paths []) as (recs & Hloop & Hall).
  exists recs. unfold process_files. rewrite Hloop. simpl. auto.
Qed.

(* ================================================================= *)
(** ** The driver *)

Lemma Path_eqb_refl (p : Path) : Path_eqb p p = true.
Proof.
  unfold Path_eqb. rewrite str_eqb_refl. simpl.
  induction (parts p) as [|x l IH]; simpl; [reflexivity|].
  rewrite str_eqb_refl. exact IH.
Qed.

Lemma main_missing_file (args : Args) (w : World) :
  truthy (file args) = true ->
  exists_ (nodes w) (Path_of_str (text_of (file args))) = Ok false ->
  main args w
  = (mkWorld (nodes w) (write_failure w)
       (stdout w ++ [ py "[intelligence] error: file not found: "
                        ++ str (Path_of_str (text_of (file args))) ]),
     Raise (SystemExit 2)).
Proof.
  intros Hf Hex. unfold main, bindM, reading. rewrite Hf. simpl.
  rewrite Hex. reflexivity.
Qed.

Lemma main_single_file (args : Args) (w : World) (r : value) :
  truthy (file args) = true ->
  exists_ (nodes w) (Path_of_str (text_of (file args))) = Ok true ->
  process_file (nodes w) (Path_of_str (text_of (file args))) = Ok r ->
  main args w
  = write_output args (VDict [ (py "files", VList [r]) ])
      (mkWorld (nodes w) (write_failure w)
         (stdout w ++ [ py "[intelligence] processing single file: "
                          ++ str (Path_of_str (text_of (file args))) ])).
Proof.
  intros Hf Hex Hr. unfold main, bindM, reading. rewrite Hf. simpl.
  rewrite Hex. simpl. rewrite Hr. reflexivity.
Qed.

Lemma main_directory (args : Args) (w : World) (files : list Path)
    (results : value) :
  truthy (file args) = false ->
  list_files (nodes w) (Path_of_str (data_dir args)) = Ok files ->
  process_files (nodes w) files = Ok results ->
  main args w
  = write_output args results
      (mkWorld (nodes w) (write_failure w)
         (stdout w ++ [ py "[intelligence] discovered "
                          ++ decimal (List.length files) ++ py " files in "
                          ++ str (Path_of_str (data_dir args)) ])).
Proof.
  intros Hf Hl Hr. unfold main, bindM, reading. rewrite Hf. simpl.
  rewrite Hl. simpl. rewrite Hr. reflexivity.
Qed.

Lemma main_discovery_fails (args : Args) (w : World) (e : exn) :
  truthy (file args) = false ->
  list_files (nodes w) (Path_of_str (data_dir args)) = Raise e ->
  main args w = (w, Raise e).
Proof.
  intros Hf Hl. unfold main, bindM, reading. rewrite Hf. simpl.
  rewrite Hl. reflexivity.
Qed.

Lemma write_output_ok (args : Args) (results : value) (w : World) :
  output_ok args w ->
  snd (write_output args results w) = Ok tt /\
  emitted args (fst (write_output args results w)) (json_dumps results) /\
  (forall line, In line (stdout w) ->
                In line (stdout (fst (write_output args results w)))).
Proof.
  unfold output_ok, write_output, emitted, bindM, write_text, print.
  destruct (truthy (output args)); intros [H|H]; try discriminate; simpl.
  - rewrite H. simpl. rewrite Path_eqb_refl.
    repeat split. intros line Hin. apply in_or_app. auto.
  - rewrite last_last. repeat split. intros line Hin. apply in_or_app. auto.
  - rewrite last_last. repeat split. intros line Hin. apply in_or_app. auto.
Qed.

Lemma main_completes (args : Args) (w : World) :
  (if truthy (file args)
   then exists_ (nodes w) (Path_of_str (text_of (file args))) = Ok true
   else exists files,
       list_files (nodes w) (Path_of_str (data_dir args)) = Ok files) ->
  output_ok args w ->
  snd (main args w) = Ok tt.
Proof.
  intros Hin Hout. destruct (truthy (file args)) eqn:Hf.
  - destruct (process_file_total (nodes w)
                (Path_of_str (text_of (file args)))) as [r Hr].
    rewrite (main_single_file args w r Hf Hin Hr).
    apply write_output_ok. exact Hout.
  - destruct Hin as [files Hl].
    destruct (process_files_total (nodes w) files) as (recs & Hr & _).
    rewrite (main_directory args w files _ Hf Hl Hr).
    apply write_output_ok. exact Hout.
Qed.

(* ================================================================= *)
(** ** The claims about previews *)

(** C1: whatever the path and whatever the failure [e] of reading or
    decoding it, [preview_file] does not raise: it returns the diagnostic
    string "<error reading file: " ++ str(e) ++ ">", which is not empty and
    contains "error reading file"; the record of the file carries it as its
    preview, and a run that processes the file still exits with status 0. *)
Theorem preview_file_never_raises (fs : FS) (p : Path) (n : Z) (e : exn) :
  read_text fs p = Raise e ->
  preview_file fs p n = Ok (py "<error reading file: " ++ str_exn e ++ py ">")
  /\ contains (py "error reading file") (diagnostic (str_exn e)) = true
  /\ diagnostic (str_exn e) <> []
  /\ (exists r, process_file fs p = Ok r /\
                get r "preview" = Some (VStr (diagnostic (str_exn e))))
  /\ (forall args w,
         nodes w = fs -> processes args w p -> output_ok args w ->
         snd (main args w) = Ok tt /\ exit_code (snd (main args w)) = 0%Z).
Proof.
  intros Hread.
  split; [apply preview_file_failed; exact Hread|].
  split; [apply diagnostic_marked|].
  split; [discriminate|].
  split.
  { eexists. split.
    - apply process_file_record, preview_file_failed. exact Hread.
    - reflexivity. }
  intros args w <- Hp Hout.
  assert (snd (main args w) = Ok tt) as ->; [|split; reflexivity].
  apply main_completes; [|exact Hout].
  unfold processes in Hp. destruct (truthy (file args)).
  - destruct Hp as [-> Hex]. exact Hex.
  - destruct Hp as (files & Hl & _). exists files. exact Hl.
Qed.

(** C1, at the file of [data/] that may not be read, named by [--file]. *)
Lemma preview_file_never_raises_witness :
  preview_file sample_fs (child data (py "secret.txt")) 200
  = Ok (py "<error reading file: "
          ++ py "[Errno 13] Permission denied: 'data/secret.txt'" ++ py ">")
  /\ exit_code
       (snd (main (mkArgs (py "data/") (Some (py "data/secret.txt")) None)
               sample_world)) = 0%Z.
Proof.
  destruct (preview_file_never_raises sample_fs
              (child data (py "secret.txt")) 200
              (OSError PermissionError
                 (py "[Errno 13] Permission denied: 'data/secret.txt'"))
              eq_refl) as (Hprev & _ & _ & _ & Hrun).
  split; [exact Hprev|].
  apply (Hrun (mkArgs (py "data/") (Some (py "data/secret.txt")) None)
           sample_world eq_refl).
  - split; reflexivity.
  - left. reflexivity.
Defined.

(** C2 (as amended): for every path and every bound [n >= 0], when the file
    is read the preview has at most [n] characters (and no more than the
    text has); when reading fails the diagnostic string is returned whole,
    22 characters longer than the error description, whatever [n] is. *)
Theorem preview_file_length_bound (fs : FS) (p : Path) (n : Z) :
  (0 <= n)%Z ->
  (forall text, read_text fs p = Ok text ->
     exists s, preview_file fs p n = Ok s /\
               (Z.of_nat (List.length s) <= n)%Z /\
               List.length s <= List.length text) /\
  (forall e, read_text fs p = Raise e ->
     exists s, preview_file fs p n = Ok s /\
               List.length s = 22 + List.length (str_exn e)).
Proof.
  intros Hn. split.
  - intros text Hread. eexists.
    split; [apply preview_file_read; exact Hread|].
    rewrite replace_length, slice_upto_length by exact Hn. lia.
  - intros e Hread. eexists.
    split; [apply preview_file_failed; exact Hread|].
    apply diagnostic_length.
Qed.

(** C2 (as amended), at the bound 5 and the file [data/b.txt]. *)
Lemma preview_file_length_bound_witness :
  (forall text, read_text sample_fs (child data (py "b.txt")) = Ok text ->
     exists s, preview_file sample_fs (child data (py "b.txt")) 5 = Ok s /\
               (Z.of_nat (List.length s) <= 5)%Z /\
               List.length s <= List.length text) /\
  (forall e, read_text sample_fs (child data (py "b.txt")) = Raise e ->
     exists s, preview_file sample_fs (child data (py "b.txt")) 5 = Ok s /\
               List.length s = 22 + List.length (str_exn e)).
Proof.
  apply (preview_file_length_bound sample_fs (child data (py "b.txt")) 5).
  lia.
Defined.

(** C2 (as stated) fails where reading fails: the diagnostic for
    [data/secret.txt] has 69 characters under the bound 10, and the one for
    the file with the long name has 259 under the default bound 200. *)
Lemma preview_file_diagnostic_exceeds_bound :
  (exists s, preview_file sample_fs (child data (py "secret.txt")) 10 = Ok s /\
             List.length s = 69 /\ ~ (Z.of_nat (List.length s) <= 10)%Z) /\
  (exists s, preview_file sample_fs (child data long_name) default_length
             = Ok s /\
             List.length s = 259 /\
             ~ (Z.of_nat (List.length s) <= default_length)%Z).
Proof.
  split; eexists; (split; [reflexivity|]);
    (split; [vm_compute; reflexivity | apply Z.lt_nge; reflexivity]).
Qed.



(** C6 (as amended): for every file that is read, the preview is the
    truncated text with each newline (U+000A) replaced by one space and every
    other character left as it is, position by position; so it contains no
    newline. *)
Theorem preview_file_replaces_newlines
    (fs : FS) (p : Path) (n : Z) (text : pystr) :
  read_text fs p = Ok text ->
  exists s,
    preview_file fs p n = Ok s /\
    List.length s = List.length (slice_upto text n) /\
    (forall i c, nth_error (slice_upto text n) i = Some c ->
                 nth_error s i = Some (if N.eqb c NL then SP else c)) /\
    ~ In NL s.
Proof.
  intros Hread. eexists.
  split; [apply preview_file_read; exact Hread|].
  split; [apply replace_length|].
  split; [intros i c; apply replace_nth|].
  apply replace_removes. discriminate.
Qed.

(** C6 (as amended), at [data/b.txt] under the default bound. *)
Lemma preview_file_replaces_newlines_witness :
  exists s,
    preview_file sample_fs (child data (py "b.txt")) 200 = Ok s /\
    List.length s
    = List.length (slice_upto (py "hello" ++ [NL] ++ py "world") 200) /\
    (forall i c,
        nth_error (slice_upto (py "hello" ++ [NL] ++ py "world") 200) i
        = Some c ->
        nth_error s i = Some (if N.eqb c NL then SP else c)) /\
    ~ In NL s.
Proof.
  apply (preview_file_replaces_newlines sample_fs (child data (py "b.txt"))
           200 (py "hello" ++ [NL] ++ py "world")).
  reflexivity.
Defined.

(** C6 (as stated) fails at a file holding U+2028 LINE SEPARATOR: the file
    is read, and its preview still contains that line break. *)
Lemma preview_file_keeps_line_separator :
  preview_file sample_fs (child data (py "notes.txt")) default_length
  = Ok (py "one" ++ [LINE_SEPARATOR] ++ py "two") /\
  is_line_break LINE_SEPARATOR = true /\
  In LINE_SEPARATOR (py "one" ++ [LINE_SEPARATOR] ++ py "two") /\
  ~ (forall s,
        preview_file sample_fs (child data (py "notes.txt")) default_length
        = Ok s ->
        single_line s = true).
Proof.
  split; [reflexivity|]. split; [reflexivity|].
  split; [simpl; auto 10|].
  intros H. specialize (H _ eq_refl). vm_compute in H. discriminate.
Qed.

(* ================================================================= *)
(** ** The claims about discovery and the run *)




(** C7: for every path [p], [process_file] returns a record with exactly
    the five fields file, preview, entities, relations and provenance, in
    which "file" is [str(p)], "preview" is what [preview_file] returns under
    the default bound, "entities" and "relations" are empty lists and
    "provenance" maps "source" to [str(p)]. *)
Theorem process_file_record_shape (fs : FS) (p : Path) :
  exists r preview prov,
    process_file fs p = Ok r /\
    keys r = [ py "file"; py "preview"; py "entities"; py "relations";
               py "provenance" ] /\
    get r "file" = Some (VStr (str p)) /\
    preview_file fs p default_length = Ok preview /\
    get r "preview" = Some (VStr preview) /\
    get r "entities" = Some (VList []) /\
    get r "relations" = Some (VList []) /\
    get r "provenance" = Some prov /\
    get prov "source" = Some (VStr (str p)) /\
    keys prov = [ py "source" ].
Proof.
  destruct (preview_file_total fs p default_length) as [s Hs].
  eexists. exists s. eexists.
  split; [apply process_file_record; exact Hs|].
  repeat split; try reflexivity. exact Hs.
Qed.

(** C8: for every list of paths, [process_files] returns the result set
    whose "files" list is [process_file] applied to each path, in the order
    of the input, one record per path (duplicates kept); the batch never
    raises, a record depends on the file at its own path only, and a path
    whose reading fails gets the usual record with the diagnostic as its
    preview. *)
Theorem process_files_maps_in_order (fs : FS) (paths : list Path) :
  exists recs,
    process_files fs paths = Ok (VDict [ (py "files", VList recs) ]) /\
    map (process_file fs) paths = map Ok recs /\
    List.length recs = List.length paths /\
    (forall fs' p, In p paths -> fs' p = fs p ->
                   process_file fs' p = process_file fs p) /\
    (forall p e, In p paths -> read_text fs p = Raise e ->
       In (VDict
             [ (py "file", VStr (str p));
               (py "preview", VStr (diagnostic (str_exn e)));
               (py "entities", VList []);
               (py "relations", VList []);
               (py "provenance", VDict [ (py "source", VStr (str p)) ]) ])
          recs).
Proof.
  destruct (process_files_total fs paths) as (recs & Hres & Hall).
  exists recs. split; [exact Hres|].
  assert (map (process_file fs) paths = map Ok recs) as Hmap.
  { clear Hres. induction Hall as [|p r paths recs Hr _ IH]; simpl;
      [reflexivity | rewrite Hr, IH; reflexivity]. }
  split; [exact Hmap|].
  split; [symmetry; eapply Forall2_length; exact Hall|].
  split; [intros fs' p _; apply process_file_local|].
  intros p e Hin Hread.
  pose proof (process_file_record fs p _ (preview_file_failed fs p _ e Hread))
    as Hrec.
  apply (in_map (process_file fs)) in Hin.
  rewrite Hmap, Hrec in Hin. apply in_map_iff in Hin.
  destruct Hin as (r & Heq & Hr). injection Heq as ->. exact Hr.
Qed.




(** C10: [list_files] returns only for paths that do not exist or are
    directories; at every path that exists and is not a directory (a regular
    file, say) it raises NotADirectoryError, as it does at the regular file
    [data/a.txt], where a directory-mode run ends with status 1 and prints
    nothing. *)
Theorem list_files_raises_on_non_directory :
  (forall fs p files,
      list_files fs p = Ok files ->
      exists_ fs p = Ok false \/ is_dir fs p = true) /\
  (forall fs p,
      exists_ fs p = Ok true -> is_dir fs p = false ->
      list_files fs p
      = Raise (OSError NotADirectoryError
                 (os_message "[Errno 20] Not a directory" p))) /\
  (regular sample_fs (child data (py "a.txt")) = true /\
   list_files sample_fs (child data (py "a.txt"))
   = Raise (OSError NotADirectoryError
              (py "[Errno 20] Not a directory: 'data/a.txt'")) /\
   main (mkArgs (py "data/a.txt") None None) sample_world
   = (sample_world,
      Raise (OSError NotADirectoryError
               (py "[Errno 20] Not a directory: 'data/a.txt'"))) /\
   exit_code (snd (main (mkArgs (py "data/a.txt") None None) sample_world))
   = 1%Z).
Proof.
  split; [exact list_files_returns|].
  split; [exact list_files_not_a_directory|].
  repeat split.
Qed.

(* ================================================================= *)
(** ** The scenario of the specification *)

Example scenario_discovery :
  list_files scenario_fs data
  = Ok [ child data (py "a.txt"); child data (py "b.txt") ].
Proof. reflexivity. Qed.

Example scenario_records :
  process_files scenario_fs
    [ child data (py "a.txt"); child data (py "b.txt") ]
  = Ok (VDict
          [ (py "files",
             VList
               [ VDict
                   [ (py "file", VStr (py "data/a.txt"));
                     (py "preview", VStr (py "xy"));
                     (py "entities", VList []);
                     (py "relations", VList []);
                     (py "provenance",
                      VDict [ (py "source", VStr (py "data/a.txt")) ]) ];
                 VDict
                   [ (py "file", VStr (py "data/b.txt"));
                     (py "preview", VStr (py "hello world"));
                     (py "entities", VList []);
                     (py "relations", VList []);
                     (py "provenance",
                      VDict [ (py "source", VStr (py "data/b.txt")) ]) ] ]) ]).
Proof. reflexivity. Qed.

Example scenario_run :
  exit_code
    (snd (main (mkArgs (py "data/") None None)
            (mkWorld scenario_fs (fun _ => None) []))) = 0%Z.
Proof. reflexivity. Qed.

(** A negative bound counts from the end of the text, as Python slices do. *)
Example negative_bound :
  preview_file scenario_fs (child data (py "b.txt")) (-6)
  = Ok (py "hello").
Proof. reflexivity. Qed.

(** An empty [--file] is not a request for single-file mode. *)
Example empty_file_option :
  stdout (fst (main (mkArgs (py "nonexistent/") (Some []) None)
                 (mkWorld scenario_fs (fun _ => None) [])))
  = [ py "[intelligence] discovered 0 files in nonexistent";
      json_dumps (VDict [ (py "files", VList []) ]) ].
Proof. reflexivity. Qed.

(** A target that cannot be written ends the run with status 1. *)
Example unwritable_output :
  exit_code
    (snd (main (mkArgs (py "data/") None (Some (py "/proc/out.json")))
            (mkWorld scenario_fs
               (fun q => Some (denied q)) []))) = 1%Z.
Proof. reflexivity. Qed.

(* ================================================================= *)
(** ** Which exceptions can occur *)

Lemma failure_is_Exception (f : io_failure) :
  is_Exception (exn_of_failure f) = true.
Proof. destruct f; reflexivity. Qed.

Lemma exists_raises_Exception (fs : FS) (p : Path) (e : exn) :
  exists_ fs p = Raise e -> is_Exception e = true.
Proof.
  unfold exists_. destruct (fs p); intros H; try discriminate.
  injection H as <-. apply failure_is_Exception.
Qed.

Lemma is_file_raises_Exception (fs : FS) (p : Path) (e : exn) :
  is_file fs p = Raise e -> is_Exception e = true.
Proof.
  unfold is_file. destruct (fs p); intros H; try discriminate.
  injection H as <-. apply failure_is_Exception.
Qed.

Lemma iterdir_raises_Exception (fs : FS) (p : Path) (e : exn) :
  iterdir fs p = Raise e -> is_Exception e = true.
Proof.
  unfold iterdir. destruct (fs p) as [|c|[l|f]|c|f]; simpl; intros H;
    try discriminate; injection H as <-;
    try reflexivity; apply failure_is_Exception.
Qed.

Lemma keep_files_raises_Exception (fs : FS) (entries : list Path) (e : exn) :
  keep_files fs entries = Raise e -> is_Exception e = true.
Proof.
  induction entries as [|q entries IH]; simpl; [discriminate|].
  destruct (is_file fs q) as [b|e'] eqn:Hq; simpl.
  - destruct (keep_files fs entries) as [l|e'']; simpl; intros H;
      [discriminate|]. injection H as <-. apply IH. reflexivity.
  - intros H. injection H as <-.
    eapply is_file_raises_Exception. exact Hq.
Qed.

Lemma list_files_raises_Exception (fs : FS) (p : Path) (e : exn) :
  list_files fs p = Raise e -> is_Exception e = true.
Proof.
  unfold list_files.
  destruct (exists_ fs p) as [[|]|e1] eqn:H1; simpl.
  - destruct (iterdir fs p) as [entries|e2] eqn:H2; simpl.
    + destruct (keep_files fs entries) as [l|e3] eqn:H3; simpl; intros H;
        [discriminate|]. injection H as <-.
      eapply keep_files_raises_Exception. exact H3.
    + intros H. injection H as <-.
      eapply iterdir_raises_Exception. exact H2.
  - discriminate.
  - intros H. injection H as <-.
    eapply exists_raises_Exception. exact H1.
Qed.

Lemma exit_code_Exception (e : exn) :
  is_Exception e = true -> exit_code (Raise e) = 1%Z.
Proof. destruct e; simpl; [discriminate | reflexivity | reflexivity]. Qed.

(* ================================================================= *)
(** ** The shape of a run *)

(** Every run ends in one of three ways: an exception of the file system
    before anything is printed, the missing-file exit, or the output step
    after one line was printed. *)
Lemma main_shape (args : Args) (w : World) :
  (exists e, is_Exception e = true /\ main args w = (w, Raise e))
  \/ (truthy (file args) = true /\
      exists_ (nodes w) (Path_of_str (text_of (file args))) = Ok false /\
      main args w
      = (printed w (py "[intelligence] error: file not found: "
                      ++ str (Path_of_str (text_of (file args)))),
         Raise (SystemExit 2)))
  \/ (exists line results,
         main args w = write_output args results (printed w line) /\
         (truthy (file args) = true ->
          exists_ (nodes w) (Path_of_str (text_of (file args))) = Ok true)).
Proof.
  destruct (truthy (file args)) eqn:Hf.
  - destruct (exists_ (nodes w) (Path_of_str (text_of (file args))))
      as [[|]|e] eqn:Hex.
    + right. right.
      destruct (process_file_total (nodes w)
                  (Path_of_str (text_of (file args)))) as [r Hr].
      eexists. eexists.
      split; [exact (main_single_file args w r Hf Hex Hr) | auto].
    + right. left. split; [reflexivity|]. split; [reflexivity|].
      apply main_missing_file; assumption.
    + left. exists e. split; [eapply exists_raises_Exception; exact Hex|].
      unfold main, bindM, reading. rewrite Hf. simpl. rewrite Hex.
      reflexivity.
  - destruct (list_files (nodes w) (Path_of_str (data_dir args)))
      as [files|e] eqn:Hl.
    + right. right.
      destruct (process_files_total (nodes w) files) as (recs & Hr & _).
      eexists. eexists.
      split; [exact (main_directory args w files _ Hf Hl Hr)|].
      discriminate.
    + left. exists e.
      split; [eapply list_files_raises_Exception; exact Hl|].
      apply main_discovery_fails; assumption.
Qed.

(** The output step prints or writes, or fails on the write and leaves the
    world as it was. *)
Lemma write_output_shape (args : Args) (results : value) (w : World) :
  (truthy (output args) = false /\
   write_output args results w = (printed w (json_dumps results), Ok tt))
  \/ (truthy (output args) = true /\
      exists f,
        write_failure w (Path_of_str (text_of (output args))) = Some f /\
        write_output args results w = (w, Raise (exn_of_failure f)))
  \/ (truthy (output args) = true /\
      write_failure w (Path_of_str (text_of (output args))) = None /\
      write_output args results w
      = (mkWorld
           (fun q =>
              if Path_eqb q (Path_of_str (text_of (output args)))
              then Regular (inl (json_dumps results))
              else nodes w q)
           (write_failure w)
           (stdout w ++ [ py "[intelligence] written output to "
                            ++ str (Path_of_str (text_of (output args))) ]),
         Ok tt)).
Proof.
  unfold write_output, bindM, write_text, print, printed.
  destruct (truthy (output args)); [|left; auto].
  destruct (write_failure w (Path_of_str (text_of (output args))))
    as [f|] eqn:Hw.
  - right. left. split; [reflexivity|]. exists f. auto.
  - right. right. auto.
Qed.

(** Two runs that differ in [--output] only read the same input: both fail
    before printing, both take the missing-file exit, or both reach the
    output step with the same results after the same line. *)
Lemma main_same_input (d : pystr) (f o o' : option pystr) (w : World) :
  (exists e, is_Exception e = true /\
             main (mkArgs d f o) w = (w, Raise e) /\
             main (mkArgs d f o') w = (w, Raise e))
  \/ (exists line,
         main (mkArgs d f o) w = (printed w line, Raise (SystemExit 2)) /\
         main (mkArgs d f o') w = (printed w line, Raise (SystemExit 2)))
  \/ (exists line results,
         main (mkArgs d f o) w
         = write_output (mkArgs d f o) results (printed w line) /\
         main (mkArgs d f o') w
         = write_output (mkArgs d f o') results (printed w line)).
Proof.
  destruct (truthy f) eqn:Hf.
  - destruct (exists_ (nodes w) (Path_of_str (text_of f))) as [[|]|e] eqn:Hex.
    + right. right.
      destruct (process_file_total (nodes w) (Path_of_str (text_of f)))
        as [r Hr].
      eexists. eexists. split.
      * exact (main_single_file (mkArgs d f o) w r Hf Hex Hr).
      * exact (main_single_file (mkArgs d f o') w r Hf Hex Hr).
    + right. left. eexists. split.
      * exact (main_missing_file (mkArgs d f o) w Hf Hex).
      * exact (main_missing_file (mkArgs d f o') w Hf Hex).
    + left. exists e. split; [eapply exists_raises_Exception; exact Hex|].
      unfold main, bindM, reading. simpl. rewrite Hf. simpl. rewrite Hex.
      split; reflexivity.
  - destruct (list_files (nodes w) (Path_of_str d)) as [files|e] eqn:Hl.
    + right. right.
      destruct (process_files_total (nodes w) files) as (recs & Hr & _).
      eexists. eexists. split.
      * exact (main_directory (mkArgs d f o) w files _ Hf Hl Hr).
      * exact (main_directory (mkArgs d f o') w files _ Hf Hl Hr).
    + left. exists e.
      split; [eapply list_files_raises_Exception; exact Hl|]. split.
      * exact (main_discovery_fails (mkArgs d f o) w e Hf Hl).
      * exact (main_discovery_fails (mkArgs d f o') w e Hf Hl).
Qed.

(* ================================================================= *)
(** ** Further properties of the run *)


(** X2: once argparse has returned [args], a run without a non-empty
    [--output] leaves every file as it was, and every run only adds to what
    was printed before, two texts at most. *)
Theorem main_frame (args : Args) (w : World) :
  (truthy (output args) = false -> nodes (fst (main args w)) = nodes w) /\
  (exists added,
      stdout (fst (main args w)) = stdout w ++ added /\
      List.length added <= 2).
Proof.
  destruct (main_shape args w)
    as [(e & _ & Hm) | [(_ & _ & Hm) | (line & results & Hm & _)]];
    rewrite Hm; clear Hm.
  - simpl. split; [reflexivity|]. exists []. rewrite app_nil_r. auto.
  - simpl. split; [reflexivity|].
    eexists. split; [reflexivity | simpl; lia].
  - destruct (write_output_shape args results (printed w line))
      as [(_ & ->) | [(_ & f & _ & ->) | (Ho & _ & ->)]]; simpl.
    + split; [reflexivity|]. exists [line; json_dumps results].
      rewrite <- app_assoc. auto.
    + split; [reflexivity|]. exists [line]. auto.
    + split; [intros Hno; congruence|].
      eexists. rewrite <- app_assoc. split; [reflexivity | simpl; lia].
Qed.

(** X3: with a non-empty [--output] naming a path where no file is yet or
    a regular file that reads as text, and a write that succeeds, a run that
    would succeed without [--output] leaves at that path a regular file
    holding the very text that run prints last, prints the line
    "[intelligence] written output to <path>" in its place, and ends with
    status 0. *)
Theorem main_redirects_output (d : pystr) (f o : option pystr) (w : World) :
  truthy o = true ->
  (nodes w (Path_of_str (text_of o)) = Absent \/
   exists old, nodes w (Path_of_str (text_of o)) = Regular (inl old)) ->
  write_failure w (Path_of_str (text_of o)) = None ->
  snd (main (mkArgs d f None) w) = Ok tt ->
  snd (main (mkArgs d f o) w) = Ok tt /\
  nodes (fst (main (mkArgs d f o) w)) (Path_of_str (text_of o))
  = Regular (inl (last (stdout (fst (main (mkArgs d f None) w))) [])) /\
  stdout (fst (main (mkArgs d f o) w))
  = removelast (stdout (fst (main (mkArgs d f None) w)))
      ++ [ py "[intelligence] written output to "
             ++ str (Path_of_str (text_of o)) ].
Proof.
  intros Ho _ Hw Hok.
  destruct (main_same_input d f o None w)
    as [(e & _ & H1 & H2) | [(line & H1 & H2) | (line & results & H1 & H2)]];
    rewrite H2 in Hok; try discriminate.
  rewrite H1, H2. clear H1 H2 Hok.
  change (write_output (mkArgs d f None) results (printed w line))
    with (printed (printed w line) (json_dumps results), Ok tt).
  destruct (write_output_shape (mkArgs d f o) results (printed w line))
    as [(Hno & _) | [(_ & fl & Hfl & _) | (_ & _ & ->)]]; simpl in *;
    [congruence | congruence |].
  rewrite Path_eqb_refl, last_last, removelast_last.
  auto.
Qed.

(** X3, at the scenario with [--output out.json], a path where no file is
    yet. *)
Lemma main_redirects_output_witness :
  snd (main (mkArgs (py "data/") None (Some (py "out.json")))
         (mkWorld scenario_fs (fun _ => None) [])) = Ok tt /\
  nodes (fst (main (mkArgs (py "data/") None (Some (py "out.json")))
                (mkWorld scenario_fs (fun _ => None) [])))
    (Path_of_str (text_of (Some (py "out.json"))))
  = Regular
      (inl (last (stdout (fst (main (mkArgs (py "data/") None None)
                                 (mkWorld scenario_fs (fun _ => None) []))))
              [])) /\
  stdout (fst (main (mkArgs (py "data/") None (Some (py "out.json")))
                 (mkWorld scenario_fs (fun _ => None) [])))
  = removelast (stdout (fst (main (mkArgs (py "data/") None None)
                              (mkWorld scenario_fs (fun _ => None) []))))
      ++ [ py "[intelligence] written output to "
             ++ str (Path_of_str (text_of (Some (py "out.json")))) ].
Proof.
  apply (main_redirects_output (py "data/") None (Some (py "out.json"))
           (mkWorld scenario_fs (fun _ => None) [])).
  - reflexivity.
  - left. reflexivity.
  - reflexivity.
  - reflexivity.
Defined.

(** X4: with a non-empty [--output] whose write fails, a run that would
    succeed without [--output] prints its first line only, never the JSON
    or the confirmation, and ends with the exception of the write, status
    1. *)
Theorem main_unwritable_output
    (d : pystr) (f o : option pystr) (w : World) (fl : io_failure) :
  truthy o = true ->
  write_failure w (Path_of_str (text_of o)) = Some fl ->
  snd (main (mkArgs d f None) w) = Ok tt ->
  snd (main (mkArgs d f o) w) = Raise (exn_of_failure fl) /\
  exit_code (snd (main (mkArgs d f o) w)) = 1%Z /\
  stdout (fst (main (mkArgs d f o) w))
  = removelast (stdout (fst (main (mkArgs d f None) w))).
Proof.
  intros Ho Hw Hok.
  destruct (main_same_input d f o None w)
    as [(e & _ & H1 & H2) | [(line & H1 & H2) | (line & results & H1 & H2)]];
    rewrite H2 in Hok; try discriminate.
  rewrite H1, H2. clear H1 H2 Hok.
  change (write_output (mkArgs d f None) results (printed w line))
    with (printed (printed w line) (json_dumps results), Ok tt).
  destruct (write_output_shape (mkArgs d f o) results (printed w line))
    as [(Hno & _) | [(_ & fl' & Hfl & ->) | (_ & Hnone & _)]];
    [simpl in Hno; congruence | | simpl in Hnone; congruence].
  simpl in Hfl. assert (fl' = fl) as -> by congruence.
  simpl fst. simpl snd.
  rewrite (exit_code_Exception _ (failure_is_Exception fl)).
  unfold printed at 1 2. simpl stdout. rewrite removelast_last.
  auto.
Qed.

(** X4, at the scenario with an [--output] that may not be written. *)
Lemma main_unwritable_output_witness :
  snd (main (mkArgs (py "data/") None (Some (py "/proc/out.json")))
         (mkWorld scenario_fs (fun q => Some (denied q)) []))
  = Raise (exn_of_failure (denied (Path_of_str (py "/proc/out.json")))) /\
  exit_code
    (snd (main (mkArgs (py "data/") None (Some (py "/proc/out.json")))
            (mkWorld scenario_fs (fun q => Some (denied q)) []))) = 1%Z /\
  stdout (fst (main (mkArgs (py "data/") None (Some (py "/proc/out.json")))
                 (mkWorld scenario_fs (fun q => Some (denied q)) [])))
  = removelast
      (stdout (fst (main (mkArgs (py "data/") None None)
                      (mkWorld scenario_fs (fun q => Some (denied q)) [])))).
Proof.
  apply (main_unwritable_output (py "data/") None
           (Some (py "/proc/out.json"))
           (mkWorld scenario_fs (fun q => Some (denied q)) [])
           (denied (Path_of_str (py "/proc/out.json"))));
    reflexivity.
Defined.

Lemma records_of_paths (fs : FS) (paths : list Path) (recs : list value) :
  Forall2 (fun p r => process_file fs p = Ok r) paths recs ->
  map (process_file fs) paths = map Ok recs.
Proof.
  induction 1 as [|p r ps rs Hp _ IH]; simpl;
    [reflexivity | rewrite Hp, IH; reflexivity].
Qed.

(** X5: in directory mode, when discovery returns [files] and the output can
    be emitted, the run reports the number of files discovered, emits the
    JSON of the result set holding one record per discovered file, in
    discovery order, each the record [process_file] builds, and ends with
    status 0; the number reported is the number of records emitted. *)
Theorem main_directory_report
    (args : Args) (w : World) (files : list Path) :
  truthy (file args) = false ->
  list_files (nodes w) (Path_of_str (data_dir args)) = Ok files ->
  output_ok args w ->
  exists recs,
    map (process_file (nodes w)) files = map Ok recs /\
    emitted args (fst (main args w))
      (json_dumps (VDict [ (py "files", VList recs) ])) /\
    In (py "[intelligence] discovered " ++ decimal (List.length recs)
          ++ py " files in " ++ str (Path_of_str (data_dir args)))
       (stdout (fst (main args w))) /\
    snd (main args w) = Ok tt.
Proof.
  intros Hf Hl Hout.
  destruct (process_files_total (nodes w) files) as (recs & Hr & Hall).
  exists recs.
  split; [apply records_of_paths; exact Hall|].
  rewrite (main_directory args w files _ Hf Hl Hr).
  match goal with
  | |- context [write_output ?a ?r ?w1] =>
      destruct (write_output_ok a r w1 Hout) as (Hok & Hem & Hkeep)
  end.
  split; [exact Hem|]. split; [|exact Hok].
  apply Hkeep. simpl. apply in_or_app. right. left.
  rewrite <- (Forall2_length Hall). reflexivity.
Qed.

(** X5, at the scenario. *)
Lemma main_directory_report_witness :
  exists recs,
    map (process_file scenario_fs)
      [ child data (py "a.txt"); child data (py "b.txt") ] = map Ok recs /\
    emitted (mkArgs (py "data/") None None)
      (fst (main (mkArgs (py "data/") None None)
              (mkWorld scenario_fs (fun _ => None) [])))
      (json_dumps (VDict [ (py "files", VList recs) ])) /\
    In (py "[intelligence] discovered " ++ decimal (List.length recs)
          ++ py " files in " ++ str (Path_of_str (py "data/")))
       (stdout (fst (main (mkArgs (py "data/") None None)
                       (mkWorld scenario_fs (fun _ => None) [])))) /\
    snd (main (mkArgs (py "data/") None None)
           (mkWorld scenario_fs (fun _ => None) [])) = Ok tt.
Proof.
  apply (main_directory_report (mkArgs (py "data/") None None)
           (mkWorld scenario_fs (fun _ => None) [])
           [ child data (py "a.txt"); child data (py "b.txt") ]).
  - reflexivity.
  - reflexivity.
  - left. reflexivity.
Defined.

(** X6: [--file] may name a directory: the run does not fail, it emits a
    result set with the single record of that path, whose preview is the
    diagnostic of the failed read, and ends with status 0. *)
Theorem main_single_file_directory (args : Args) (w : World) :
  truthy (file args) = true ->
  is_dir (nodes w) (Path_of_str (text_of (file args))) = true ->
  output_ok args w ->
  exists m,
    emitted args (fst (main args w))
      (json_dumps
         (VDict
            [ (py "files",
               VList
                 [ VDict
                     [ (py "file",
                        VStr (str (Path_of_str (text_of (file args)))));
                       (py "preview", VStr (diagnostic m));
                       (py "entities", VList []);
                       (py "relations", VList []);
                       (py "provenance",
                        VDict
                          [ (py "source",
                             VStr (str (Path_of_str
                                          (text_of (file args))))) ]) ] ]) ]))
    /\ snd (main args w) = Ok tt.
Proof.
  intros Hf Hd Hout. set (p := Path_of_str (text_of (file args))) in *.
  assert (exists_ (nodes w) p = Ok true) as Hex.
  { unfold is_dir in Hd. unfold exists_.
    destruct (nodes w p); try discriminate. reflexivity. }
  assert (exists e, read_text (nodes w) p = Raise e) as [e He].
  { unfold is_dir in Hd. unfold read_text.
    destruct (nodes w p); try discriminate. eexists. reflexivity. }
  exists (str_exn e).
  rewrite (main_single_file args w _ Hf Hex
             (process_file_record _ _ _
                (preview_file_failed _ _ default_length _ He))).
  match goal with
  | |- context [write_output ?a ?r ?w1] =>
      destruct (write_output_ok a r w1 Hout) as (Hok & Hem & _)
  end.
  split; assumption.
Qed.

(** X6, at [--file data/sub] in the sample world. *)
Lemma main_single_file_directory_witness :
  exists m,
    emitted (mkArgs (py "data/") (Some (py "data/sub")) None)
      (fst (main (mkArgs (py "data/") (Some (py "data/sub")) None)
              sample_world))
      (json_dumps
         (VDict
            [ (py "files",
               VList
                 [ VDict
                     [ (py "file",
                        VStr (str (Path_of_str
                                     (text_of (Some (py "data/sub"))))));
                       (py "preview", VStr (diagnostic m));
                       (py "entities", VList []);
                       (py "relations", VList []);
                       (py "provenance",
                        VDict
                          [ (py "source",
                             VStr (str (Path_of_str
                                          (text_of
                                             (Some (py "data/sub")))))) ])
                     ] ]) ]))
    /\ snd (main (mkArgs (py "data/") (Some (py "data/sub")) None)
              sample_world) = Ok tt.
Proof.
  apply (main_single_file_directory
           (mkArgs (py "data/") (Some (py "data/sub")) None) sample_world).
  - reflexivity.
  - reflexivity.
  - left. reflexivity.
Defined.

(** X7: when discovery raises in directory mode (the data directory is a
    regular file, or may not be listed), the exception leaves [main] before
    anything is printed or written, and the run ends with status 1. *)
Theorem main_discovery_error (args : Args) (w : World) (e : exn) :
  truthy (file args) = false ->
  list_files (nodes w) (Path_of_str (data_dir args)) = Raise e ->
  main args w = (w, Raise e) /\
  exit_code (snd (main args w)) = 1%Z.
Proof.
  intros Hf Hl. rewrite (main_discovery_fails args w e Hf Hl).
  split; [reflexivity|]. simpl snd. apply exit_code_Exception.
  eapply list_files_raises_Exception. exact Hl.
Qed.

(** X7, at [--data-dir locked] in the sample world. *)
Lemma main_discovery_error_witness :
  main (mkArgs (py "locked") None None) sample_world
  = (sample_world,
     Raise (OSError PermissionError
              (py "[Errno 13] Permission denied: 'locked'"))) /\
  exit_code (snd (main (mkArgs (py "locked") None None) sample_world)) = 1%Z.
Proof.
  apply (main_discovery_error (mkArgs (py "locked") None None) sample_world
           (OSError PermissionError
              (py "[Errno 13] Permission denied: 'locked'")));
    reflexivity.
Defined.

(** X8: a non-empty [--file] takes precedence: the run is the same whatever
    [--data-dir] says, so the data directory is never consulted. *)
Theorem main_file_precedence
    (d d' : pystr) (f o : option pystr) (w : World) :
  truthy f = true ->
  main (mkArgs d f o) w = main (mkArgs d' f o) w.
Proof.
  intros Hf. unfold main, bindM. simpl. rewrite Hf. reflexivity.
Qed.

(** X8, at [--file data/a.txt] with two data directories. *)
Lemma main_file_precedence_witness :
  main (mkArgs (py "data/") (Some (py "data/a.txt")) None) sample_world
  = main (mkArgs (py "locked") (Some (py "data/a.txt")) None) sample_world.
Proof.
  apply (main_file_precedence (py "data/") (py "locked")
           (Some (py "data/a.txt")) None sample_world).
  reflexivity.
Defined.

(** X9: an option given as the empty string counts as not given: an empty
    [--file] selects directory mode and an empty [--output] prints the
    JSON, whatever else the command line and the world hold. *)
Theorem main_empty_options (d : pystr) (f o : option pystr) (w : World) :
  main (mkArgs d (Some []) o) w = main (mkArgs d None o) w /\
  main (mkArgs d f (Some [])) w = main (mkArgs d f None) w.
Proof. split; reflexivity. Qed.

(* ================================================================= *)
(** ** Further properties of previews and records *)

Lemma replace_firstn (old new : codepoint) (k : nat) (s : pystr) :
  replace old new (firstn k s) = firstn k (replace old new s).
Proof. unfold replace. symmetry. apply firstn_map. Qed.

Lemma replace_absent (old new : codepoint) (s : pystr) :
  ~ In old s -> replace old new s = s.
Proof.
  induction s as [|c s IH]; simpl; intros Hn; [reflexivity|].
  destruct (N.eqb_spec c old) as [->|_]; [elim Hn; left; reflexivity|].
  rewrite IH; [reflexivity|]. intros H. apply Hn. right. exact H.
Qed.

(** X10: previews of one file under growing bounds extend each other: for
    [0 <= n <= m] the preview under [n] is the first [n] characters of the
    preview under [m]. *)
Theorem preview_file_prefix
    (fs : FS) (p : Path) (n m : Z) (text : pystr) :
  read_text fs p = Ok text ->
  (0 <= n <= m)%Z ->
  exists s t,
    preview_file fs p n = Ok s /\
    preview_file fs p m = Ok t /\
    s = firstn (Z.to_nat n) t.
Proof.
  intros Hread Hnm. eexists. eexists.
  split; [apply preview_file_read; exact Hread|].
  split; [apply preview_file_read; exact Hread|].
  unfold slice_upto.
  destruct (Z.ltb_spec n 0); [lia|]. destruct (Z.ltb_spec m 0); [lia|].
  rewrite !replace_firstn, firstn_firstn. f_equal. lia.
Qed.

(** X10, at [data/b.txt] under the bounds 7 and 200. *)
Lemma preview_file_prefix_witness :
  exists s t,
    preview_file scenario_fs (child data (py "b.txt")) 7 = Ok s /\
    preview_file scenario_fs (child data (py "b.txt")) 200 = Ok t /\
    s = firstn (Z.to_nat 7) t.
Proof.
  apply (preview_file_prefix scenario_fs (child data (py "b.txt")) 7 200
           (py "hello" ++ [NL] ++ py "world")).
  - reflexivity.
  - lia.
Defined.

(** X11: a negative bound does not raise: as the slice [text[:n]] has it,
    the preview is the text without its last [-n] characters (empty when the
    text is no longer than that), newlines replaced. *)
Theorem preview_file_negative_bound
    (fs : FS) (p : Path) (n : Z) (text : pystr) :
  read_text fs p = Ok text ->
  (n < 0)%Z ->
  preview_file fs p n
  = Ok (replace NL SP
          (firstn (List.length text - Z.to_nat (- n)) text)) /\
  (forall s, preview_file fs p n = Ok s ->
             List.length s = List.length text - Z.to_nat (- n)).
Proof.
  intros Hread Hn.
  assert (preview_file fs p n
          = Ok (replace NL SP
                  (firstn (List.length text - Z.to_nat (- n)) text))) as H.
  { rewrite (preview_file_read _ _ n _ Hread). unfold slice_upto.
    destruct (Z.ltb_spec n 0); [|lia]. do 3 f_equal. lia. }
  split; [exact H|].
  intros s Hs. rewrite H in Hs. injection Hs as <-.
  rewrite replace_length, length_firstn. lia.
Qed.

(** X11, at [data/b.txt] under the bound -6. *)
Lemma preview_file_negative_bound_witness :
  preview_file scenario_fs (child data (py "b.txt")) (-6)
  = Ok (replace NL SP
          (firstn (List.length (py "hello" ++ [NL] ++ py "world")
                   - Z.to_nat (- (-6)))
             (py "hello" ++ [NL] ++ py "world"))) /\
  (forall s,
      preview_file scenario_fs (child data (py "b.txt")) (-6) = Ok s ->
      List.length s
      = List.length (py "hello" ++ [NL] ++ py "world") - Z.to_nat (- (-6))).
Proof.
  apply (preview_file_negative_bound scenario_fs (child data (py "b.txt"))
           (-6) (py "hello" ++ [NL] ++ py "world")).
  - reflexivity.
  - lia.
Defined.

(** X12: a text without newlines that fits the bound is its own preview. *)
Theorem preview_file_short_line
    (fs : FS) (p : Path) (n : Z) (text : pystr) :
  read_text fs p = Ok text ->
  ~ In NL text ->
  (Z.of_nat (List.length text) <= n)%Z ->
  preview_file fs p n = Ok text.
Proof.
  intros Hread Hnl Hn. rewrite (preview_file_read _ _ n _ Hread).
  rewrite slice_upto_all by exact Hn.
  rewrite replace_absent by exact Hnl. reflexivity.
Qed.

(** X12, at [data/a.txt] under the default bound. *)
Lemma preview_file_short_line_witness :
  preview_file scenario_fs (child data (py "a.txt")) 200 = Ok (py "xy").
Proof.
  apply (preview_file_short_line scenario_fs (child data (py "a.txt")) 200
           (py "xy")).
  - reflexivity.
  - simpl. intros [H|[H|[]]]; discriminate.
  - simpl. lia.
Defined.

(** X13: truncating and replacing newlines commute: the preview is also the
    slice, under the same bound, of the text with its newlines replaced. *)
Theorem preview_file_replace_then_slice
    (fs : FS) (p : Path) (n : Z) (text : pystr) :
  read_text fs p = Ok text ->
  preview_file fs p n = Ok (slice_upto (replace NL SP text) n).
Proof.
  intros Hread. rewrite (preview_file_read _ _ n _ Hread). f_equal.
  unfold slice_upto. rewrite replace_length.
  destruct (n <? 0)%Z; apply replace_firstn.
Qed.

(** X13, at [data/b.txt] under the bound 7. *)
Lemma preview_file_replace_then_slice_witness :
  preview_file scenario_fs (child data (py "b.txt")) 7
  = Ok (slice_upto (replace NL SP (py "hello" ++ [NL] ++ py "world")) 7).
Proof.
  apply (preview_file_replace_then_slice scenario_fs
           (child data (py "b.txt")) 7 (py "hello" ++ [NL] ++ py "world")).
  reflexivity.
Defined.

(** X14: the record of a file that is read holds as preview the first 200
    characters of the text with newlines replaced by spaces: at most 200
    characters, none of them a newline. *)
Theorem process_file_preview (fs : FS) (p : Path) (text : pystr) :
  read_text fs p = Ok text ->
  exists r,
    process_file fs p = Ok r /\
    get r "preview" = Some (VStr (replace NL SP (firstn 200 text))) /\
    List.length (replace NL SP (firstn 200 text)) <= 200 /\
    ~ In NL (replace NL SP (firstn 200 text)).
Proof.
  intros Hread. eexists.
  split; [apply process_file_record, preview_file_read; exact Hread|].
  split; [reflexivity|].
  split; [rewrite replace_length; apply firstn_le_length|].
  apply replace_removes. discriminate.
Qed.

(** X14, at [data/b.txt]. *)
Lemma process_file_preview_witness :
  exists r,
    process_file scenario_fs (child data (py "b.txt")) = Ok r /\
    get r "preview"
    = Some (VStr (replace NL SP
                    (firstn 200 (py "hello" ++ [NL] ++ py "world")))) /\
    List.length
      (replace NL SP (firstn 200 (py "hello" ++ [NL] ++ py "world")))
    <= 200 /\
    ~ In NL (replace NL SP (firstn 200 (py "hello" ++ [NL] ++ py "world"))).
Proof.
  apply (process_file_preview scenario_fs (child data (py "b.txt"))
           (py "hello" ++ [NL] ++ py "world")).
  reflexivity.
Defined.

Lemma map_Ok_inj {A} (a b : list A) :
  map (@Ok A) a = map (@Ok A) b -> a = b.
Proof.
  revert b. induction a as [|x a IH]; intros [|y b]; simpl; intros H;
    try discriminate; [reflexivity|].
  injection H as -> H. f_equal. auto.
Qed.

(** X15: processing a concatenation of path lists gives the concatenation
    of the records: batches can be split and joined without changing the
    result. *)
Theorem process_files_app (fs : FS) (l1 l2 : list Path) :
  exists r1 r2,
    process_files fs l1 = Ok (VDict [ (py "files", VList r1) ]) /\
    process_files fs l2 = Ok (VDict [ (py "files", VList r2) ]) /\
    process_files fs (l1 ++ l2)
    = Ok (VDict [ (py "files", VList (r1 ++ r2)) ]).
Proof.
  destruct (process_files_total fs l1) as (r1 & H1 & A1).
  destruct (process_files_total fs l2) as (r2 & H2 & A2).
  destruct (process_files_total fs (l1 ++ l2)) as (r & H & A).
  exists r1, r2. split; [exact H1|]. split; [exact H2|].
  apply records_of_paths in A1, A2, A.
  rewrite map_app, A1, A2, <- map_app in A.
  rewrite H, (map_Ok_inj _ _ A). reflexivity.
Qed.

(* ================================================================= *)
(** ** Further properties of discovery *)

Lemma strictly_sorted {A} (key : A -> pystr) (l : list A) :
  StronglySorted (key_le key) l ->
  NoDup (map key l) ->
  StronglySorted (fun a b => str_ltb (key a) (key b) = true) l.
Proof.
  induction 1 as [|x l Hs IH Hall]; intros Hnd; [constructor|].
  simpl in Hnd. inversion Hnd as [|? ? Hnotin Hnd']; subst.
  constructor; [apply IH; exact Hnd'|].
  rewrite Forall_forall in *. intros y Hy.
  destruct (str_ltb (key x) (key y)) eqn:E; [reflexivity|].
  elim Hnotin. rewrite (str_ltb_total _ _ E (Hall y Hy)).
  apply in_map. exact Hy.
Qed.

(** X16: in a directory that can be listed, with entries of pairwise
    different names that can each be examined, the files [list_files]
    returns are pairwise different, no more than the entries, and their
    names increase strictly in code-point order. *)
Theorem list_files_strictly_increasing
    (fs : FS) (p : Path) (names : list pystr) :
  fs p = Directory (inl names) ->
  Forall (fun n => reachable fs (child p n) = true) names ->
  NoDup names ->
  exists files,
    list_files fs p = Ok files /\
    StronglySorted (fun a b => str_ltb (name a) (name b) = true) files /\
    NoDup files /\
    List.length files <= List.length names.
Proof.
  intros Hdir Hall Hnd. eexists.
  split; [exact (list_files_directory fs p names Hdir Hall)|].
  assert (NoDup (map name
                   (sorted name (filter (regular fs) (map (child p) names)))))
    as Hnames.
  { eapply Permutation_NoDup;
      [apply Permutation_map, sorted_perm|].
    rewrite regular_children, names_of_children.
    apply NoDup_filter. exact Hnd. }
  split; [apply strictly_sorted; [apply sorted_Sorted | exact Hnames]|].
  split; [eapply NoDup_map_inv; exact Hnames|].
  rewrite <- (Permutation_length (sorted_perm name _)).
  rewrite regular_children, length_map. apply filter_length_le.
Qed.

(** X16, at [data/] of the scenario. *)
Lemma list_files_strictly_increasing_witness :
  exists files,
    list_files scenario_fs data = Ok files /\
    StronglySorted (fun a b => str_ltb (name a) (name b) = true) files /\
    NoDup files /\
    List.length files <= List.length [ py "b.txt"; py "a.txt" ].
Proof.
  apply (list_files_strictly_increasing scenario_fs data
           [ py "b.txt"; py "a.txt" ]).
  - reflexivity.
  - repeat constructor.
  - repeat constructor; simpl; intros H;
      repeat (destruct H as [H|H]; try discriminate); exact H.
Defined.

(** X17: a directory that can be listed and holds no regular file (it is
    empty, or holds only subdirectories and special files) yields the empty
    list, as a missing directory does. *)
Theorem list_files_no_regular_files
    (fs : FS) (p : Path) (names : list pystr) :
  fs p = Directory (inl names) ->
  Forall (fun n => reachable fs (child p n) = true /\
                   regular fs (child p n) = false) names ->
  list_files fs p = Ok [].
Proof.
  intros Hdir Hall. rewrite (list_files_directory fs p names Hdir).
  - rewrite regular_children.
    assert (filter (fun n => regular fs (child p n)) names = []) as ->;
      [|reflexivity].
    clear Hdir. induction Hall as [|n names [_ Hn] _ IH]; simpl;
      [reflexivity|].
    rewrite Hn. exact IH.
  - eapply Forall_impl; [|exact Hall]. intros n [H _]. exact H.
Qed.

(** X17, at a directory that holds a subdirectory and a FIFO only. *)
Lemma list_files_no_regular_files_witness :
  list_files
    (fs_of [ (data, Directory (inl [ py "sub"; py "pipe" ]));
             (child data (py "sub"), Directory (inl []));
             (child data (py "pipe"), Special (inl [])) ])
    data = Ok [].
Proof.
  apply (list_files_no_regular_files _ data [ py "sub"; py "pipe" ]).
  - reflexivity.
  - repeat constructor.
Defined.

(* ================================================================= *)
(** ** The JSON text *)

Lemma ascii_text_app (a b : pystr) :
  ascii_text (a ++ b) = ascii_text a && ascii_text b.
Proof. apply forallb_app. Qed.

Lemma hex_digit_ascii (d : N) :
  (d < 16)%N -> ascii_text [hex_digit d] = true.
Proof.
  intros Hd. unfold ascii_text, hex_digit. cbn [forallb].
  rewrite andb_true_r.
  destruct (N.ltb_spec d 10);
    apply orb_true_iff; right; apply andb_true_iff;
    split; apply N.leb_le; lia.
Qed.

Lemma hex4_ascii (n : N) : ascii_text (hex4 n) = true.
Proof.
  unfold hex4.
  change (ascii_text
            ([hex_digit ((n / 4096) mod 16)]
               ++ [hex_digit ((n / 256) mod 16)]
               ++ [hex_digit ((n / 16) mod 16)]
               ++ [hex_digit (n mod 16)]) = true).
  rewrite !ascii_text_app, !hex_digit_ascii;
    [reflexivity | | | |]; apply N.mod_lt; discriminate.
Qed.

Lemma escape_char_ascii (c : codepoint) : ascii_text (escape_char c) = true.
Proof.
  unfold escape_char.
  repeat match goal with
         | |- context [if N.eqb c ?k then _ else _] =>
             destruct (N.eqb c k); [reflexivity|]
         end.
  destruct ((32 <=? c)%N && (c <=? 126)%N) eqn:E.
  - unfold ascii_text. simpl. rewrite E, orb_true_r. reflexivity.
  - destruct (c <? 65536)%N.
    + change (ascii_text ([BACKSLASH; 117%N] ++ hex4 c) = true).
      rewrite ascii_text_app, hex4_ascii. reflexivity.
    + cbv zeta.
      match goal with
      | |- ascii_text ((_ :: _ :: hex4 ?a) ++ (_ :: _ :: hex4 ?b)) = true =>
          change (ascii_text
                    (([BACKSLASH; 117%N] ++ hex4 a)
                       ++ ([BACKSLASH; 117%N] ++ hex4 b)) = true)
      end.
      rewrite !ascii_text_app, !hex4_ascii. reflexivity.
Qed.

Lemma json_string_ascii (s : pystr) : ascii_text (json_string s) = true.
Proof.
  unfold json_string.
  change (ascii_text ([34%N] ++ flat_map escape_char s ++ [34%N]) = true).
  rewrite !ascii_text_app. simpl. rewrite andb_true_r.
  induction s as [|c s IH]; simpl; [reflexivity|].
  rewrite ascii_text_app, escape_char_ascii. exact IH.
Qed.

Lemma newline_indent_ascii (level : nat) :
  ascii_text (newline_indent level) = true.
Proof.
  unfold newline_indent.
  induction (2 * level) as [|k IH]; [reflexivity | exact IH].
Qed.

Lemma join_ascii (sep : pystr) (ws : list pystr) :
  ascii_text sep = true ->
  Forall (fun w => ascii_text w = true) ws ->
  ascii_text (join sep ws) = true.
Proof.
  intros Hsep. induction 1 as [|w ws Hw Hws IH]; simpl; [reflexivity|].
  destruct ws as [|w' ws]; [exact Hw|].
  rewrite !ascii_text_app, Hw, Hsep, IH. reflexivity.
Qed.

Lemma value_nested_ind (P : value -> Prop) :
  (forall s, P (VStr s)) ->
  (forall items, Forall P items -> P (VList items)) ->
  (forall items, Forall (fun kv => P (snd kv)) items -> P (VDict items)) ->
  forall v, P v.
Proof.
  intros Hs Hl Hd. fix IH 1. intros [s|items|items].
  - apply Hs.
  - apply Hl. induction items as [|v items IHi]; constructor;
      [apply IH | exact IHi].
  - apply Hd. induction items as [|[k v] items IHi]; constructor;
      [apply IH | exact IHi].
Qed.

Lemma dumps_at_ascii (v : value) :
  forall level, ascii_text (dumps_at level v) = true.
Proof.
  induction v as [s|items IH|items IH] using value_nested_ind;
    intros level.
  - apply json_string_ascii.
  - destruct items as [|v items]; [reflexivity|].
    change (ascii_text
              (py "[" ++ newline_indent (S level)
                 ++ join (py "," ++ newline_indent (S level))
                      (map (dumps_at (S level)) (v :: items))
                 ++ newline_indent level ++ py "]") = true).
    rewrite !ascii_text_app, !newline_indent_ascii, join_ascii;
      [reflexivity | |].
    + rewrite ascii_text_app, newline_indent_ascii. reflexivity.
    + apply Forall_map. eapply Forall_impl; [|exact IH].
      intros a Ha. apply Ha.
  - destruct items as [|kv items]; [reflexivity|].
    change (ascii_text
              (py "{" ++ newline_indent (S level)
                 ++ join (py "," ++ newline_indent (S level))
                      (map (fun kv => json_string (fst kv) ++ py ": "
                                        ++ dumps_at (S level) (snd kv))
                         (kv :: items))
                 ++ newline_indent level ++ py "}") = true).
    rewrite !ascii_text_app, !newline_indent_ascii, join_ascii;
      [reflexivity | |].
    + rewrite ascii_text_app, newline_indent_ascii. reflexivity.
    + apply Forall_map. eapply Forall_impl; [|exact IH].
      intros a Ha. cbv beta.
      rewrite !ascii_text_app, json_string_ascii, Ha. reflexivity.
Qed.

(** X18: whatever the names and the contents of the files, the JSON text is
    made of newlines and printable ASCII characters only: every other
    character of a string is written as an escape. *)
Theorem json_dumps_ascii (v : value) : ascii_text (json_dumps v) = true.
Proof. apply dumps_at_ascii. Qed.
